(** * boilr.trainer: a shallow embedding of the training-loop driver

    The driver ([Trainer] in [boilr/trainer.py]) owns iteration control, the
    test / checkpoint / log cadence and the persistence of histories; all
    model work is done by the experiment collaborator.  The embedding is a
    state-and-exception monad over a world made of the experiment's
    attributes, the trainer's attributes, the locals of [run], the file
    system and a trace of the calls made to collaborators and libraries.

    Collaborator code is not part of the driver: its behaviour is an oracle
    record ([Collab]) over which every theorem quantifies. *)

From Stdlib Require Import ZArith Lia Ascii String.
From stdpp Require Import gmap strings list fin_maps.

Local Open Scope Z_scope.

(** ** Python values used by the driver *)

(** Exceptions that the driver's own statements can raise, and the ones
    raised by a collaborator hook ([HookError], tagged by the hook). *)
Inductive Exc : Type :=
| AssertionError
| ZeroDivisionError
| AttributeError
| TypeError
| KeyError
| FileExistsError
| FileNotFoundError
| HookError (hook : string).

#[global] Instance Exc_eq_dec : EqDecision Exc.
Proof. solve_decision. Defined.

(** [experiment.args], restricted to the fields the driver reads. *)
Record Args : Type := mkArgs {
  checkpoint_interval : Z;
  test_log_interval : Z;
  log_interval : Z;
  seed : Z;
  no_cuda : bool;
  dry_run : bool
}.

Inductive Device : Type := cpu | cuda.

(** The model object as far as the driver can see it: the step counter and
    the [training] flag of a torch module. *)
Record Model : Type := mkModel {
  global_step : Z;
  training : bool
}.

Inductive Optimizer : Type := mkOptimizer (ident : Z).

(** Python's [a % b] on integers: floor modulo, [ZeroDivisionError] on a
    zero divisor.  [Z.modulo] has the sign of the divisor, as Python's. *)
Definition py_mod (a b : Z) : Exc + Z :=
  if b =? 0 then inl ZeroDivisionError else inr (a mod b).

(** [range(1, n + 1)]. *)
Definition range1 (n : Z) : list Z :=
  map Z.of_nat (seq 1 (Z.to_nat n)).

(** ** Paths *)

Definition starts_with_slash (s : string) : bool :=
  match s with
  | String c _ => bool_decide (c = "/"%char)
  | EmptyString => false
  end.

Fixpoint ends_with_slash (s : string) : bool :=
  match s with
  | EmptyString => false
  | String c EmptyString => bool_decide (c = "/"%char)
  | String _ r => ends_with_slash r
  end.

(** [os.path.join a b] for two components. *)
Definition path_join (a b : string) : string :=
  if starts_with_slash b then b
  else if bool_decide (a = "") || ends_with_slash a then a +:+ b
  else a +:+ "/" +:+ b.

(** The proper ancestors of a path: its prefixes that end just before a
    separator.  [seen] is the prefix read so far. *)
Fixpoint ancestors_from (seen rest : string) : list string :=
  match rest with
  | EmptyString => []
  | String c r =>
      let tl := ancestors_from (seen +:+ String c EmptyString) r in
      if bool_decide (c = "/"%char) && negb (bool_decide (seen = ""))
      then seen :: tl else tl
  end.

Definition ancestors (p : string) : list string := ancestors_from "" p.

(** [os.path.dirname]: the last ancestor, or the empty string. *)
Definition dirname (p : string) : string := List.last (ancestors p) "".

(** The folders and files of a run, from the date string and the run
    description. *)
Definition folder_str (date_str desc : string) : string :=
  date_str +:+ "_" +:+ desc.

Definition result_folder (fstr : string) : string := path_join "results" fstr.

Definition imgs_folder (fstr : string) : string :=
  path_join (result_folder fstr) "imgs".

Definition ckpt_folder (fstr : string) : string := path_join "checkpoints" fstr.

Definition log_file (fstr : string) : string :=
  path_join (result_folder fstr) "log.pkl".

Definition tboard_folder (fstr : string) : string :=
  path_join "tensorboard_logs" fstr.

Definition config_file (fstr : string) : string :=
  path_join (ckpt_folder fstr) "config.pkl".

Section Driver.

(** Metric values ([V]) and tensors ([T]) are opaque to the driver. *)
Context {V T : Type}.

(** A summary: metric name to value. *)
Abbreviation Summaries := (gmap string V).

(** ** History and summarizers *)

(** Modelled from the spec: [History] of [boilr/summarize.py], which is not
    among the sources: an ordered, append-only sequence of
    (step, metric name -> value) records. *)
Definition History : Type := list (Z * Summaries).

Definition History_new : History := [].

Definition History_add (h : History) (summaries : Summaries) (step : Z) : History :=
  h ++ [(step, summaries)].

(** Modelled from the spec: [History.get_dict], the mapping serialized to
    [log.pkl]: metric name -> ordered (step, value) pairs. *)
Definition History_get_dict (h : History) : gmap string (list (Z * V)) :=
  foldl (fun d rec =>
           union_with (fun l1 l2 => Some (l1 ++ l2)) d
                      ((fun v => [(rec.1, v)]) <$> rec.2))
        ∅ h.

(** Modelled from the spec: [SummarizerCollection] of [boilr/summarize.py]
    in moving-average mode: a trailing window of the metric dictionaries
    added since the last reset; [mean] is the averaging of the values. *)
Definition Summarizers : Type := list Summaries.

Definition ma_length : nat := 1000.

Definition Summarizers_add (s : Summarizers) (m : Summaries) : Summarizers :=
  let s' := s ++ [m] in
  drop (length s' - ma_length)%nat s'.

Definition Summarizers_get_all (mean : list V -> V) (s : Summarizers) : Summaries :=
  mean <$> foldl (fun d m => union_with (fun l1 l2 => Some (l1 ++ l2)) d
                                        ((fun v => [v]) <$> m)) ∅ s.

(** ** The file system *)

(** What a file holds: the pickled arguments, a pickled history dictionary,
    or data written by a collaborator. *)
Inductive Pickled : Type :=
| PArgs (a : Args)
| PHistory (d : gmap string (list (Z * V)))
| PBlob (tag : string).

Record FS : Type := mkFS {
  dirs : gset string;
  files : gmap string Pickled
}.

Definition FS_empty : FS := mkFS ∅ ∅.

(** [os.makedirs(p)]: fails when [p] exists, creates [p] and the missing
    ancestors otherwise. *)
Definition makedirs (p : string) (fs : FS) : Exc + FS :=
  if bool_decide (p ∈ dirs fs) then inl FileExistsError
  else inr (mkFS (dirs fs ∪ {[p]} ∪ list_to_set (ancestors p)) (files fs)).

(** [with open(p, 'wb') as fd: pickle.dump(c, fd)]: the directory of [p]
    has to exist; the file is replaced. *)
Definition write_file (p : string) (c : Pickled) (fs : FS) : Exc + FS :=
  if bool_decide (dirname p = "") || bool_decide (dirname p ∈ dirs fs)
  then inr (mkFS (dirs fs) (<[p := c]> (files fs)))
  else inl FileNotFoundError.

(** ** The experiment collaborator and the trainer object *)

(** [experiment.dataloaders]: the driver iterates over [train]. *)
Record Dataloaders : Type := mkDataloaders {
  train : list (T * T)
}.

(** The attributes of the experiment object read or written by the driver.
    An attribute that is [None] in Python is [None] here. *)
Record Experiment : Type := mkExperiment {
  device : option Device;
  dataloaders : option Dataloaders;
  model : option Model;
  args : option Args;
  run_description : option string;
  optimizer : option Optimizer;
  max_epochs : Z
}.

(** The attributes of the [Trainer] object. [tb_writer] is the folder of
    the tensorboard [SummaryWriter], when there is one. *)
Record Trainer : Type := mkTrainer {
  train_history : History;
  test_history : History;
  self_device : Device;
  img_folder : string;
  checkpoint_folder : string;
  log_path : string;
  tb_writer : option string
}.

(** A [tqdm] progress bar. *)
Record Tqdm : Type := mkTqdm {
  total : Z;
  count : Z;
  closed : bool
}.

(** The behaviour of everything the driver calls and does not define: the
    experiment's hooks, the model's and the optimizer's methods, the
    helpers of [boilr/utils.py] and the environment.  A hook returns its
    result or raises.  The setup hooks act on the experiment's attributes;
    [additional_testing] and [model_checkpoint] may write to the file
    system. *)
Record Collab : Type := mkCollab {
  have_tensorboard : bool;
  cuda_is_available : bool;
  get_date_str : string;
  print_num_params : option Model -> Exc + unit;
  make_and_set_datamanager : Experiment -> Exc + Experiment;
  make_and_set_model : Experiment -> Exc + Experiment;
  make_and_set_optimizer : Experiment -> Exc + Experiment;
  optimizer_zero_grad : Optimizer -> Model -> Exc + unit;
  forward_pass : Model -> T -> T -> Exc + gmap string T;
  tensor_backward : T -> Exc + unit;
  get_metrics_dict : gmap string T -> Exc + Summaries;
  optimizer_step : Optimizer -> Model -> Exc + unit;
  test_procedure : Model -> Exc + Summaries;
  additional_testing : string -> Model -> FS -> Exc + FS;
  print_train_log : Z -> Z -> Summaries -> Exc + unit;
  print_test_log : Summaries -> Z -> Z -> Exc + unit;
  model_checkpoint : string -> Model -> FS -> Exc + FS;
  mean : list V -> V
}.

(** The calls and effects recorded in the trace, in program order.  A call
    to a hook is recorded when it is made; a file-system effect when it
    has happened. *)
Inductive Event : Type :=
| EvSetRndSeed (s : Z)
| EvMakedirs (p : string)
| EvSummaryWriter (p : string)
| EvPickleDump (p : string) (c : Pickled)
| EvMakeDatamanager
| EvMakeModel
| EvPrintNumParams
| EvMakeOptimizer
| EvCheckExperiment (opt : bool)
| EvModelTrain
| EvModelEval
| EvTestProcedure
| EvAdditionalTesting (folder : string)
| EvPrintTestLog (step epoch : Z)
| EvTbAddScalar (tag : string) (v : V) (step : Z)
| EvCheckpoint (folder : string)
| EvTqdm (total : Z)
| EvProgressUpdate
| EvProgressClose
| EvZeroGrad
| EvForwardPass
| EvBackward
| EvGetMetricsDict
| EvSummarizersAdd
| EvSummarizersGetAll
| EvPrintTrainLog (step epoch : Z)
| EvOptimizerStep
| EvIncrementGlobalStep.

(** The world: the experiment object (shared by the caller and the
    trainer), the trainer object, the locals of [run] that outlive an
    iteration, the file system, and the trace.  Every trace entry carries
    the model as it was when the entry was recorded. *)
Record World : Type := mkWorld {
  experiment : Experiment;
  self : Trainer;
  progress : option Tqdm;
  train_summarizers : Summarizers;
  fs : FS;
  trace : list (Event * option Model)
}.

Definition events (w : World) : list Event := (trace w).*1.

(** ** The monad: state and exceptions; the state survives a raise *)

Definition M (A : Type) : Type := World -> (Exc + A) * World.

Definition ret {A} (a : A) : M A := fun w => (inr a, w).

Definition raise {A} (e : Exc) : M A := fun w => (inl e, w).

Definition bind {A B} (m : M A) (k : A -> M B) : M B :=
  fun w => match m w with
           | (inl e, w') => (inl e, w')
           | (inr a, w') => k a w'
           end.

Notation "x <- c ;; k" := (bind c (fun x => k))
  (at level 100, c at next level, right associativity).
Notation "c ;; k" := (bind c (fun _ => k))
  (at level 100, right associativity).

Definition get : M World := fun w => (inr w, w).

Definition modify (f : World -> World) : M unit := fun w => (inr tt, f w).

Definition lift {A} (r : Exc + A) : M A :=
  match r with inl e => raise e | inr a => ret a end.

(** Reading an attribute of an object that may be [None]. *)
Definition attr {A} (o : option A) : M A :=
  match o with Some a => ret a | None => raise AttributeError end.

(** [assert b]. *)
Definition assert_ (b : bool) : M unit :=
  if b then ret tt else raise AssertionError.

Definition when (b : bool) (m : M unit) : M unit :=
  if b then m else ret tt.

(** [for a in l: body a]. *)
Fixpoint for_each {A} (l : list A) (body : A -> M unit) : M unit :=
  match l with
  | [] => ret tt
  | a :: l' => body a ;; for_each l' body
  end.

Definition set_experiment (e : Experiment) : M unit :=
  modify (fun w => mkWorld e (self w) (progress w) (train_summarizers w)
                           (fs w) (trace w)).

Definition set_self (t : Trainer) : M unit :=
  modify (fun w => mkWorld (experiment w) t (progress w)
                           (train_summarizers w) (fs w) (trace w)).

Definition set_progress (p : option Tqdm) : M unit :=
  modify (fun w => mkWorld (experiment w) (self w) p (train_summarizers w)
                           (fs w) (trace w)).

Definition set_train_summarizers (s : Summarizers) : M unit :=
  modify (fun w => mkWorld (experiment w) (self w) (progress w) s
                           (fs w) (trace w)).

Definition set_fs (f : FS) : M unit :=
  modify (fun w => mkWorld (experiment w) (self w) (progress w)
                           (train_summarizers w) f (trace w)).

Definition emit (ev : Event) : M unit :=
  modify (fun w => mkWorld (experiment w) (self w) (progress w)
                           (train_summarizers w) (fs w)
                           (trace w ++ [(ev, model (experiment w))])).

Definition exp_with_model (e : Experiment) (m : option Model) : Experiment :=
  mkExperiment (device e) (dataloaders e) m (args e) (run_description e)
               (optimizer e) (max_epochs e).

Definition exp_with_device (e : Experiment) (d : option Device) : Experiment :=
  mkExperiment d (dataloaders e) (model e) (args e) (run_description e)
               (optimizer e) (max_epochs e).

Definition set_model (m : Model) : M unit :=
  modify (fun w =>
    mkWorld (exp_with_model (experiment w) (Some m))
            (self w) (progress w) (train_summarizers w) (fs w) (trace w)).

Definition set_device (d : Device) : M unit :=
  modify (fun w =>
    mkWorld (exp_with_device (experiment w) (Some d))
            (self w) (progress w) (train_summarizers w) (fs w) (trace w)).

(** The trainer with other histories. *)
Definition self_with_histories (t : Trainer) (trh teh : History) : Trainer :=
  mkTrainer trh teh (self_device t) (img_folder t) (checkpoint_folder t)
            (log_path t) (tb_writer t).

Definition get_experiment : M Experiment := w <- get ;; ret (experiment w).
Definition get_self : M Trainer := w <- get ;; ret (self w).
Definition get_model : M Model := e <- get_experiment ;; attr (model e).
Definition get_args : M Args := e <- get_experiment ;; attr (args e).
Definition get_optimizer : M Optimizer := e <- get_experiment ;; attr (optimizer e).

(** A file-system operation of the driver or of a hook. *)
Definition on_fs (op : FS -> Exc + FS) : M unit :=
  w <- get ;; f <- lift (op (fs w)) ;; set_fs f.

(** ** The driver *)

Variable C : Collab.

(** Modelled from the spec: the model's [train()], [eval()] and
    [increment_global_step()], methods of the model collaborator: they set
    the [training] flag, and add one to the step counter. *)
Definition model_train : M unit :=
  m <- get_model ;;
  emit EvModelTrain ;;
  set_model (mkModel (global_step m) true).

Definition model_eval : M unit :=
  m <- get_model ;;
  emit EvModelEval ;;
  set_model (mkModel (global_step m) false).

Definition model_increment_global_step : M unit :=
  m <- get_model ;;
  emit EvIncrementGlobalStep ;;
  set_model (mkModel (global_step m + 1) (training m)).

(** [Trainer._check_experiment]: the attributes as objects that may be
    [None]. *)
Definition obj {A} (o : option A) : option unit := (fun _ => tt) <$> o.

Definition check_experiment_attributes (e : Experiment) (opt : bool)
  : list (option unit) :=
  [obj (device e); obj (dataloaders e); obj (model e); obj (args e);
   obj (run_description e)]
  ++ (if opt then [obj (optimizer e)] else []).

Definition Trainer_check_experiment (opt : bool) : M unit :=
  e <- get_experiment ;;
  emit (EvCheckExperiment opt) ;;
  assert_ (negb (bool_decide (None ∈ check_experiment_attributes e opt))).

(** A call to a setup hook of the experiment. *)
Definition setup_hook (ev : Event) (h : Experiment -> Exc + Experiment) : M unit :=
  e <- get_experiment ;;
  emit ev ;;
  e' <- lift (h e) ;;
  set_experiment e'.

(** [os.makedirs(p)] and [pickle.dump] into a file opened for writing. *)
Definition os_makedirs (p : string) : M unit :=
  on_fs (makedirs p) ;; emit (EvMakedirs p).

Definition pickle_dump (p : string) (c : Pickled) : M unit :=
  on_fs (write_file p c) ;; emit (EvPickleDump p c).

(** [Trainer.__init__(self, experiment, create_optimizer)]. *)
Definition Trainer_init (create_optimizer : bool) : M unit :=
  a <- get_args ;;
  r <- lift (py_mod (checkpoint_interval a) (test_log_interval a)) ;;
  assert_ (r =? 0) ;;
  t <- get_self ;;
  set_self (self_with_histories t History_new History_new) ;;
  emit (EvSetRndSeed (seed a)) ;;
  let use_cuda := negb (no_cuda a) && cuda_is_available C in
  let dev := if use_cuda then cuda else cpu in
  set_self (mkTrainer History_new History_new dev (img_folder t)
                      (checkpoint_folder t) (log_path t) (tb_writer t)) ;;
  set_device dev ;;
  let date_str := get_date_str C in
  e <- get_experiment ;;
  desc <- match run_description e with
          | Some d => ret d
          | None => raise TypeError
          end ;;
  let fstr := folder_str date_str desc in
  set_self (mkTrainer History_new History_new dev (imgs_folder fstr)
                      (ckpt_folder fstr) (log_file fstr) None) ;;
  when (negb (dry_run a))
    (os_makedirs (result_folder fstr) ;;
     os_makedirs (imgs_folder fstr) ;;
     os_makedirs (ckpt_folder fstr) ;;
     when (have_tensorboard C)
       (os_makedirs (tboard_folder fstr) ;;
        emit (EvSummaryWriter (tboard_folder fstr)) ;;
        set_self (mkTrainer History_new History_new dev (imgs_folder fstr)
                            (ckpt_folder fstr) (log_file fstr)
                            (Some (tboard_folder fstr)))) ;;
     pickle_dump (config_file fstr) (PArgs a)) ;;
  setup_hook EvMakeDatamanager (make_and_set_datamanager C) ;;
  e <- get_experiment ;;
  _ <- attr (dataloaders e) ;;
  setup_hook EvMakeModel (make_and_set_model C) ;;
  e <- get_experiment ;;
  emit EvPrintNumParams ;;
  lift (print_num_params C (model e)) ;;
  when create_optimizer
    (setup_hook EvMakeOptimizer (make_and_set_optimizer C)) ;;
  Trainer_check_experiment create_optimizer.

(** The scalars sent to tensorboard for a summary. *)
Definition tb_events (tb : option string) (prefix : string)
    (summaries : Summaries) (step : Z) : list Event :=
  match tb with
  | Some _ => map (fun kv => EvTbAddScalar (prefix +:+ kv.1) kv.2 step)
                  (map_to_list summaries)
  | None => []
  end.

(** The world with more entries in its trace, stamped with its model. *)
Definition record_events (evs : list Event) (w : World) : World :=
  mkWorld (experiment w) (self w) (progress w) (train_summarizers w) (fs w)
          (trace w ++ map (fun ev => (ev, model (experiment w))) evs).

(** [self.tb_writer.add_scalar(prefix + k, v, step)] for every item of
    [summaries], when there is a writer. *)
Definition tb_add_scalars (prefix : string) (summaries : Summaries) (step : Z)
  : M unit :=
  t <- get_self ;;
  match tb_writer t with
  | Some _ =>
      for_each (map_to_list summaries)
               (fun kv => emit (EvTbAddScalar (prefix +:+ kv.1) kv.2 step))
  | None => ret tt
  end.

(** [Trainer._test(self, epoch)]. *)
Definition Trainer_test (epoch : Z) : M unit :=
  m <- get_model ;;
  let step := global_step m in
  model_eval ;;
  m <- get_model ;;
  emit EvTestProcedure ;;
  summaries <- lift (test_procedure C m) ;;
  t <- get_self ;;
  emit (EvAdditionalTesting (img_folder t)) ;;
  on_fs (additional_testing C (img_folder t) m) ;;
  emit (EvPrintTestLog step epoch) ;;
  lift (print_test_log C summaries step epoch) ;;
  t <- get_self ;;
  set_self (self_with_histories t (train_history t)
              (History_add (test_history t) summaries step)) ;;
  a <- get_args ;;
  when (negb (dry_run a))
    (tb_add_scalars "validation_" summaries step ;;
     t <- get_self ;;
     pickle_dump (log_path t) (PHistory (History_get_dict (test_history t)))) ;;
  model_train.

(** The body of the inner loop of [Trainer.run], for one batch. *)
Definition run_batch (epoch : Z) (xy : T * T) : M unit :=
  m <- get_model ;;
  let step := global_step m in
  a <- get_args ;;
  r <- lift (py_mod step (test_log_interval a)) ;;
  when (r =? 0)
    (Trainer_test epoch ;;
     (if 0 <? step then
        a <- get_args ;;
        r <- lift (py_mod step (checkpoint_interval a)) ;;
        when (r =? 0)
          (t <- get_self ;;
           m <- get_model ;;
           emit (EvCheckpoint (checkpoint_folder t)) ;;
           on_fs (model_checkpoint C (checkpoint_folder t) m))
      else ret tt) ;;
     a <- get_args ;;
     emit (EvTqdm (test_log_interval a)) ;;
     set_progress (Some (mkTqdm (test_log_interval a) 0 false))) ;;
  o <- get_optimizer ;;
  m <- get_model ;;
  emit EvZeroGrad ;;
  lift (optimizer_zero_grad C o m) ;;
  emit EvForwardPass ;;
  outputs <- lift (forward_pass C m xy.1 xy.2) ;;
  loss <- match outputs !! "loss" with
          | Some l => ret l
          | None => raise KeyError
          end ;;
  emit EvBackward ;;
  lift (tensor_backward C loss) ;;
  emit EvGetMetricsDict ;;
  metrics_dict <- lift (get_metrics_dict C outputs) ;;
  emit EvSummarizersAdd ;;
  w <- get ;;
  set_train_summarizers (Summarizers_add (train_summarizers w) metrics_dict) ;;
  w <- get ;;
  p <- attr (progress w) ;;
  emit EvProgressUpdate ;;
  set_progress (Some (mkTqdm (total p) (count p + 1) (closed p))) ;;
  a <- get_args ;;
  r <- lift (py_mod (step + 1) (test_log_interval a)) ;;
  when (r =? 0)
    (w <- get ;;
     match progress w with
     | Some p =>
         emit EvProgressClose ;;
         set_progress (Some (mkTqdm (total p) (count p) true))
     | None => ret tt
     end) ;;
  a <- get_args ;;
  r <- lift (py_mod (step + 1) (log_interval a)) ;;
  when (r =? 0)
    (w <- get ;;
     emit EvSummarizersGetAll ;;
     let summaries := Summarizers_get_all (mean C) (train_summarizers w) in
     set_train_summarizers [] ;;
     emit (EvPrintTrainLog (step + 1) epoch) ;;
     lift (print_train_log C (step + 1) epoch summaries) ;;
     t <- get_self ;;
     set_self (self_with_histories t
                 (History_add (train_history t) summaries step)
                 (test_history t)) ;;
     a <- get_args ;;
     when (negb (dry_run a))
       (t <- get_self ;;
        pickle_dump (log_path t) (PHistory (History_get_dict (train_history t))) ;;
        tb_add_scalars "train_" summaries step)) ;;
  o <- get_optimizer ;;
  m <- get_model ;;
  emit EvOptimizerStep ;;
  lift (optimizer_step C o m) ;;
  model_increment_global_step.

(** [Trainer.run(self)]. *)
Definition Trainer_run : M unit :=
  e <- get_experiment ;;
  d <- attr (dataloaders e) ;;
  let train_loader := train d in
  set_train_summarizers [] ;;
  set_progress None ;;
  model_train ;;
  e <- get_experiment ;;
  for_each (range1 (max_epochs e))
    (fun epoch => for_each train_loader (run_batch epoch)).

End Driver.


(** ** Vocabulary of the properties *)

Section Vocabulary.

Context {V T : Type}.

(** The calls made by the body of [_test] after [model.eval()]. *)
Definition test_kind (ev : @Event V) : bool :=
  match ev with
  | EvTestProcedure | EvAdditionalTesting _ | EvPrintTestLog _ _
  | EvTbAddScalar _ _ _ | EvPickleDump _ _ | EvModelTrain => true
  | _ => false
  end.

(** A trace entry of the evaluation pass at step [s]: recorded while the
    model was in eval mode. *)
Definition in_eval (s : Z) (en : @Event V * option Model) : Prop :=
  en.2 = Some (mkModel s false) /\ test_kind en.1 = true.

(** The hooks of the optimize-step sequence, in the order of the spec. *)
Definition step_hooks : list (@Event V) :=
  [EvZeroGrad; EvForwardPass; EvBackward; EvSummarizersAdd; EvOptimizerStep;
   EvIncrementGlobalStep].

Definition is_step_hook (ev : @Event V) : bool :=
  match ev with
  | EvZeroGrad | EvForwardPass | EvBackward | EvSummarizersAdd
  | EvOptimizerStep | EvIncrementGlobalStep => true
  | _ => false
  end.

Definition is_checkpoint (ev : @Event V) : bool :=
  match ev with EvCheckpoint _ => true | _ => false end.

Definition is_zero_grad (ev : @Event V) : bool :=
  match ev with EvZeroGrad => true | _ => false end.

(** A kind of event, on a stamped trace entry. *)
Definition on_event (p : @Event V -> bool) (en : @Event V * option Model)
  : bool := p en.1.

(** The step [s] is on the checkpoint cadence of the arguments [a]. *)
Definition checkpoint_due (a : Args) (s : Z) : Prop :=
  py_mod s (checkpoint_interval a) = inr 0 /\ 0 < s.

(** In the trace [tr], the checkpoint hook is only called on the
    cadence, with the folder [folder]. *)
Definition checkpoints_on_cadence (a : Args) (folder : string)
    (tr : list (@Event V * option Model)) : Prop :=
  forall f mo, (EvCheckpoint f, mo) ∈ tr ->
    f = folder /\ exists m, mo = Some m /\ checkpoint_due a (global_step m).

(** In the trace [tr], every step on the cadence whose optimize-step
    sequence began has had its checkpoint hook called. *)
Definition checkpoints_when_due (a : Args) (folder : string)
    (tr : list (@Event V * option Model)) : Prop :=
  forall m, (EvZeroGrad, Some m) ∈ tr ->
    checkpoint_due a (global_step m) ->
    exists m', (EvCheckpoint folder, Some m') ∈ tr
               /\ global_step m' = global_step m.

(** The checkpoint cadence between two worlds of one execution. *)
Definition cadence_kept (a : Args) (folder : string) (w w' : @World V T)
  : Prop :=
  args (experiment w) = Some a ->
  checkpoint_folder (self w) = folder ->
  args (experiment w') = Some a
  /\ checkpoint_folder (self w') = folder
  /\ exists tr,
       trace w' = trace w ++ tr
       /\ checkpoints_on_cadence a folder tr
       /\ checkpoints_when_due a folder tr.

(** The model checkpoint hook is invoked among [evs]. *)
Definition checkpoint_invoked (evs : list (@Event V)) : Prop :=
  exists folder, EvCheckpoint folder ∈ evs.

(** The calls and effects of a construction that reaches its end, for the
    arguments [a], the run description [desc] and [create_optimizer]. *)
Definition init_events (C : @Collab V T) (a : Args) (desc : string)
    (create_optimizer : bool) : list (@Event V) :=
  let fstr := folder_str (get_date_str C) desc in
  [EvSetRndSeed (seed a)]
  ++ (if dry_run a then []
      else [EvMakedirs (result_folder fstr); EvMakedirs (imgs_folder fstr);
            EvMakedirs (ckpt_folder fstr)]
           ++ (if have_tensorboard C
               then [EvMakedirs (tboard_folder fstr);
                     EvSummaryWriter (tboard_folder fstr)]
               else [])
           ++ [EvPickleDump (config_file fstr) (PArgs a)])
  ++ [EvMakeDatamanager; EvMakeModel; EvPrintNumParams]
  ++ (if create_optimizer then [EvMakeOptimizer] else [])
  ++ [EvCheckExperiment create_optimizer].

(** Every event of kind [p] comes before every event of kind [q]. *)
Definition before (p q : @Event V -> bool) (evs : list (@Event V)) : Prop :=
  forall i j ei ej,
    evs !! i = Some ei -> evs !! j = Some ej ->
    p ei = true -> q ej = true -> (i < j)%nat.

Definition is_check (ev : @Event V) : bool :=
  match ev with EvCheckExperiment _ => true | _ => false end.

Definition is_makedirs (ev : @Event V) : bool :=
  match ev with EvMakedirs _ => true | _ => false end.

Definition is_config_dump (ev : @Event V) : bool :=
  match ev with EvPickleDump _ (PArgs _) => true | _ => false end.

Definition is_setup (ev : @Event V) : bool :=
  match ev with
  | EvMakeDatamanager | EvMakeModel | EvMakeOptimizer => true
  | _ => false
  end.

(** The order of construction as the specification words it: validation,
    then the directories, then the configuration, then the setup hooks. *)
Definition spec_init_order (evs : list (@Event V)) : Prop :=
  before is_check is_makedirs evs /\
  before is_makedirs is_config_dump evs /\
  before is_config_dump is_setup evs.

(** The history dictionaries dumped into the file [p], oldest first. *)
Definition persisted_to (p : string) (evs : list (@Event V))
  : list (gmap string (list (Z * V))) :=
  omap (fun ev => match ev with
                  | EvPickleDump q (PHistory d) =>
                      if bool_decide (q = p) then Some d else None
                  | _ => None
                  end) evs.

(** The steps recorded for the metric [k] in a history dictionary. *)
Definition steps_of (d : gmap string (list (Z * V))) (k : string) : list Z :=
  (default [] (d !! k)).*1.

(** Every snapshot holds, for every metric, the steps of the snapshot
    before it. *)
Definition snapshots_grow (l : list (gmap string (list (Z * V)))) : Prop :=
  forall i d1 d2 k,
    l !! i = Some d1 -> l !! S i = Some d2 ->
    steps_of d1 k ⊆ steps_of d2 k.

Definition steps_at (k : string) (l : list (gmap string (list (Z * V))))
  : list (list Z) :=
  map (fun d => steps_of d k) l.

(** The additional-testing and checkpoint hooks of [C] leave the file
    system as it is. *)
Definition hooks_write_nothing (C : @Collab V T) : Prop :=
  (forall p m f f', additional_testing C p m f = inr f' -> f' = f)
  /\ (forall p m f f', model_checkpoint C p m f = inr f' -> f' = f).

(** Between two worlds of a dry run, the file system is the same. *)
Definition dry_kept (a : Args) (w w' : @World V T) : Prop :=
  args (experiment w) = Some a ->
  args (experiment w') = Some a /\ fs w' = fs w.

(** Between two worlds of one execution the histories only grow, and
    every record added to the train history has a key [k] with
    [(k + 1) mod log_interval = 0]. *)
Definition histories_grow (a : Args) (w w' : @World V T) : Prop :=
  args (experiment w) = Some a ->
  args (experiment w') = Some a
  /\ (exists h, train_history (self w') = train_history (self w) ++ h
                /\ Forall (fun rec => py_mod (rec.1 + 1) (log_interval a) = inr 0) h)
  /\ (exists h, test_history (self w') = test_history (self w) ++ h).

(** The step keys of a history. *)
Definition history_steps (h : @History V) : list Z := h.*1.

End Vocabulary.

(** ** Vocabulary of further properties *)

Section MoreVocabulary.

Context {V T : Type}.

(** The effects of the driver itself on the disk. *)
Definition is_disk_event (ev : @Event V) : bool :=
  match ev with
  | EvMakedirs _ | EvSummaryWriter _ | EvPickleDump _ _ => true
  | _ => false
  end.

(** The calls and effects that belong to construction. *)
Definition is_construction_event (ev : @Event V) : bool :=
  match ev with
  | EvSetRndSeed _ | EvMakedirs _ | EvSummaryWriter _ | EvMakeDatamanager
  | EvMakeModel | EvPrintNumParams | EvMakeOptimizer | EvCheckExperiment _ =>
      true
  | _ => false
  end.

(** The writes of [run] that a dry run skips. *)
Definition is_persist_event (ev : @Event V) : bool :=
  match ev with
  | EvPickleDump _ _ | EvTbAddScalar _ _ _ => true
  | _ => false
  end.

Definition is_tqdm (ev : @Event V) : bool :=
  match ev with EvTqdm _ => true | _ => false end.

Definition is_progress_update (ev : @Event V) : bool :=
  match ev with EvProgressUpdate => true | _ => false end.

Definition is_model_eval (ev : @Event V) : bool :=
  match ev with EvModelEval => true | _ => false end.

(** The calls of an evaluation pass that returns, at step [s] of epoch
    [epoch], for the summaries [g]. *)
Definition test_pass_events (t : @Trainer V) (a : Args) (s epoch : Z)
    (g : gmap string V) : list (@Event V) :=
  [EvModelEval; EvTestProcedure; EvAdditionalTesting (img_folder t);
   EvPrintTestLog s epoch]
  ++ (if dry_run a then []
      else tb_events (tb_writer t) "validation_" g s
           ++ [EvPickleDump (log_path t)
                 (PHistory (History_get_dict
                              (History_add (test_history t) g s)))])
  ++ [EvModelTrain].

(** What a trace entry of [run] says of the step [s] of the model it is
    stamped with, for the arguments [a]: the evaluation calls are made on
    the test cadence, the train log when [s + 1] is on the log cadence,
    the writes outside a dry run only, and no construction step at all. *)
Definition run_entry_ok (a : Args) (en : @Event V * option Model) : Prop :=
  match en.2 with
  | None => False
  | Some m =>
      let s := global_step m in
      match en.1 with
      | EvSetRndSeed _ | EvMakedirs _ | EvSummaryWriter _ | EvMakeDatamanager
      | EvMakeModel | EvPrintNumParams | EvMakeOptimizer
      | EvCheckExperiment _ => False
      | EvPickleDump _ c => dry_run a = false /\ exists d, c = PHistory d
      | EvTbAddScalar _ _ s' => dry_run a = false /\ s' = s
      | EvModelEval | EvTestProcedure | EvAdditionalTesting _ =>
          py_mod s (test_log_interval a) = inr 0
      | EvPrintTestLog s' _ =>
          s' = s /\ py_mod s (test_log_interval a) = inr 0
      | EvTqdm t =>
          t = test_log_interval a /\ py_mod s (test_log_interval a) = inr 0
      | EvPrintTrainLog s' _ =>
          s' = s + 1 /\ py_mod s' (log_interval a) = inr 0
      | EvSummarizersGetAll => py_mod (s + 1) (log_interval a) = inr 0
      | EvProgressClose => py_mod (s + 1) (test_log_interval a) = inr 0
      | _ => True
      end
  end.

(** Between two worlds of one execution of [run]: the arguments are the
    same and every new trace entry is as [run_entry_ok] says. *)
Definition entries_kept (a : Args) (w w' : @World V T) : Prop :=
  args (experiment w) = Some a ->
  args (experiment w') = Some a
  /\ exists tr, trace w' = trace w ++ tr /\ Forall (run_entry_ok a) tr.

(** Between two worlds of one execution: both histories have only been
    appended to, and every record added to the test history is keyed by a
    step on the test cadence. *)
Definition histories_extend (a : Args) (w w' : @World V T) : Prop :=
  args (experiment w) = Some a ->
  args (experiment w') = Some a
  /\ (exists h, train_history (self w') = train_history (self w) ++ h)
  /\ (exists h, test_history (self w') = test_history (self w) ++ h
                /\ Forall (fun rec => py_mod rec.1 (test_log_interval a) = inr 0) h).

End MoreVocabulary.
(** ** A plain experiment, for running the driver on concrete inputs *)

Module Plain.

Definition loss_of (step : Z) : gmap string Z := {[ "loss" := step ]}.

(** A collaborator whose hooks all return, but for the test procedure
    [tp] and the checkpoint method [ck] given. *)
Definition make (tb : bool) (tp : Model -> Exc + gmap string Z)
    (ck : string -> Model -> @FS Z -> Exc + @FS Z) : @Collab Z Z :=
  {| have_tensorboard := tb;
     cuda_is_available := false;
     get_date_str := "d";
     print_num_params := fun _ => inr tt;
     make_and_set_datamanager := fun e =>
       inr (mkExperiment (device e) (Some (mkDataloaders [(0, 0); (1, 1)]))
                         (model e) (args e) (run_description e) (optimizer e)
                         (max_epochs e));
     make_and_set_model := fun e =>
       inr (mkExperiment (device e) (dataloaders e) (Some (mkModel 0 true))
                         (args e) (run_description e) (optimizer e)
                         (max_epochs e));
     make_and_set_optimizer := fun e =>
       inr (mkExperiment (device e) (dataloaders e) (model e) (args e)
                         (run_description e) (Some (mkOptimizer 0))
                         (max_epochs e));
     optimizer_zero_grad := fun _ _ => inr tt;
     forward_pass := fun m _ _ => inr (loss_of (global_step m));
     tensor_backward := fun _ => inr tt;
     get_metrics_dict := fun o => inr o;
     optimizer_step := fun _ _ => inr tt;
     test_procedure := tp;
     additional_testing := fun _ _ f => inr f;
     print_train_log := fun _ _ _ => inr tt;
     print_test_log := fun _ _ _ => inr tt;
     model_checkpoint := ck;
     mean := fun l => List.last l 0 |}.

(** The hooks return and write nothing. *)
Definition collab (tb : bool) : @Collab Z Z :=
  make tb (fun m => inr (loss_of (global_step m))) (fun _ _ f => inr f).

(** The test procedure raises. *)
Definition collab_test_raises : @Collab Z Z :=
  make false (fun _ => inl (HookError "test_procedure")) (fun _ _ f => inr f).

(** The model's [checkpoint(folder)] creates the folder when it is missing
    and saves the state of the model in it. *)
Definition collab_saving : @Collab Z Z :=
  make false (fun m => inr (loss_of (global_step m)))
       (fun folder _ f =>
          inr (mkFS (dirs f ∪ {[folder]})
                    (<[path_join folder "model.pt" := PBlob "state_dict"]>
                       (files f)))).

(** Construction, then [run], from a world. *)
Definition construct_and_run (C : @Collab Z Z) (w : @World Z Z)
  : (Exc + unit) * @World Z Z :=
  bind (Trainer_init C true) (fun _ => Trainer_run C) w.

Definition experiment0 (a : Args) (epochs : Z) : @Experiment Z :=
  mkExperiment None None None (Some a) (Some "r") None epochs.

Definition trainer0 : @Trainer Z :=
  mkTrainer [] [] cpu "" "" "" None.

Definition world0 (a : Args) (epochs : Z) : @World Z Z :=
  mkWorld (experiment0 a epochs) trainer0 None [] FS_empty [].

(** Intervals: checkpoint, test log and train log. *)
Definition intervals (c t l : Z) (dry : bool) : Args := mkArgs c t l 0 true dry.

(** A trainer that has been constructed, with its model set to step [s]
    and mode [mode]. *)
Definition constructed (C : @Collab Z Z) (a : Args) (s : Z) (mode : bool)
  : @World Z Z :=
  let w := (Trainer_init C true (world0 a 1)).2 in
  mkWorld (exp_with_model (experiment w) (Some (mkModel s mode)))
          (self w) (progress w) (train_summarizers w) (fs w) (trace w).

(** Test every 2 steps, train log at every step, 2 epochs of 2 batches. *)
Definition alternating_run : (Exc + unit) * @World Z Z :=
  construct_and_run (collab false) (world0 (intervals 2 2 1 false) 2).

(** Train log every 2 steps, 1 epoch of 2 batches. *)
Definition two_batches_run : (Exc + unit) * @World Z Z :=
  construct_and_run (collab false) (world0 (intervals 2 2 2 false) 1).

(** A dry run with a checkpoint at every step and a model that saves. *)
Definition dry_saving_run : (Exc + unit) * @World Z Z :=
  construct_and_run collab_saving (world0 (intervals 1 1 1 true) 1).

(** A construction that is not a dry run. *)
Definition fresh_world : @World Z Z := world0 (intervals 1 1 1 false) 1.

Definition construction : (Exc + unit) * @World Z Z :=
  Trainer_init (collab false) true fresh_world.

(** An evaluation pass whose test procedure raises. *)
Definition raising_pass : (Exc + unit) * @World Z Z :=
  Trainer_test collab_test_raises 1
    (constructed collab_test_raises (intervals 1 1 1 true) 0 true).

(** An evaluation pass that returns. *)
Definition dry_world : @World Z Z :=
  constructed (collab false) (intervals 2 1 1 true) 2 true.

Definition returning_pass : (Exc + unit) * @World Z Z :=
  Trainer_test (collab false) 1 dry_world.

(** An iteration at step 2, with a checkpoint every 2 steps. *)
Definition iteration : (Exc + unit) * @World Z Z :=
  run_batch (collab false) 1 (0, 0) dry_world.

(** A run from step 2, with a checkpoint every 2 steps. *)
Definition cadence_run : (Exc + unit) * @World Z Z :=
  Trainer_run (collab false) dry_world.

(** A resumed run: the model is at step 1, the test interval is 2. *)
Definition resumed_world : @World Z Z :=
  constructed (collab false) (intervals 2 2 1 true) 1 true.

(** Constructions: with intervals that do not divide, and one whose
    optimizer hook sets nothing. *)
Definition indivisible_world : @World Z Z := world0 (intervals 5 2 1 false) 1.

Definition collab_no_optimizer : @Collab Z Z :=
  {| have_tensorboard := false;
     cuda_is_available := false;
     get_date_str := "d";
     print_num_params := print_num_params (collab false);
     make_and_set_datamanager := make_and_set_datamanager (collab false);
     make_and_set_model := make_and_set_model (collab false);
     make_and_set_optimizer := fun e => inr e;
     optimizer_zero_grad := optimizer_zero_grad (collab false);
     forward_pass := forward_pass (collab false);
     tensor_backward := tensor_backward (collab false);
     get_metrics_dict := get_metrics_dict (collab false);
     optimizer_step := optimizer_step (collab false);
     test_procedure := test_procedure (collab false);
     additional_testing := additional_testing (collab false);
     print_train_log := print_train_log (collab false);
     print_test_log := print_test_log (collab false);
     model_checkpoint := model_checkpoint (collab false);
     mean := mean (collab false) |}.

Definition incomplete_construction : (Exc + unit) * @World Z Z :=
  Trainer_init collab_no_optimizer true fresh_world.

End Plain.


(** ** Further concrete inputs *)

Module Inputs.

Import Plain.

(** A world before a dry-run construction, and one before a construction
    that writes, both with tensorboard at hand. *)
Definition dry_fresh_world : @World Z Z := world0 (intervals 1 1 1 true) 1.

Definition dry_construction : (Exc + unit) * @World Z Z :=
  Trainer_init (collab true) true dry_fresh_world.

Definition tb_construction : (Exc + unit) * @World Z Z :=
  Trainer_init (collab true) true fresh_world.

(** A world whose result folder is on disk already. *)
Definition occupied_world : @World Z Z :=
  mkWorld (experiment0 (intervals 1 1 1 false) 1) trainer0 None []
          (mkFS {[ "results/d_r" ]} ∅) [].

(** A constructed trainer that writes, at step 2, and its evaluation
    pass. *)
Definition wet_world : @World Z Z :=
  constructed (collab true) (intervals 2 1 1 false) 2 true.

Definition wet_pass : (Exc + unit) * @World Z Z :=
  Trainer_test (collab true) 1 wet_world.

(** An experiment with no epoch to run. *)
Definition idle_world : @World Z Z :=
  mkWorld (mkExperiment (Some cpu) (Some (mkDataloaders [(0, 0)]))
                        (Some (mkModel 0 false))
                        (Some (intervals 1 1 1 true)) (Some "r") None 0)
          trainer0 None [] FS_empty [].

(** A constructed trainer whose experiment has lost its optimizer. *)
Definition no_optimizer_world : @World Z Z :=
  let w := dry_world in
  let e := experiment w in
  mkWorld (mkExperiment (device e) (dataloaders e) (model e) (args e)
                        (run_description e) None (max_epochs e))
          (self w) (progress w) (train_summarizers w) (fs w) (trace w).

(** A constructed trainer whose train-log interval is zero. *)
Definition zero_log_world : @World Z Z :=
  constructed (collab false) (intervals 1 1 0 true) 1 true.

(** A world before construction whose experiment has no run description. *)
Definition undescribed_world : @World Z Z :=
  mkWorld (mkExperiment None None None (Some (intervals 1 1 1 false)) None
                        None 1)
          trainer0 None [] FS_empty [].

End Inputs.
(** * Properties *)

Arguments makedirs : simpl never.
Arguments write_file : simpl never.
Arguments path_join : simpl never.
Arguments folder_str : simpl never.
Arguments py_mod : simpl never.
Arguments History_get_dict : simpl never.
Arguments History_add : simpl never.
Arguments Summarizers_add : simpl never.
Arguments Summarizers_get_all : simpl never.
Arguments tb_add_scalars : simpl never.
Arguments events : simpl never.


Section Execution.
Context {V T : Type}.
Implicit Types (w : @World V T).

Lemma bind_assoc {A B D} (m : @M V T A) (f : A -> @M V T B) (g : B -> @M V T D) w :
  bind (bind m f) g w = bind m (fun x => bind (f x) g) w.
Proof. unfold bind. destruct (m w) as [[e|a] w1]; reflexivity. Qed.

Lemma for_each_emit {A} (f : A -> @Event V) (l : list A) w :
  for_each l (fun a => emit (f a)) w = (inr tt, record_events (map f l) w).
Proof.
  revert w. induction l as [|a l IH]; intros w.
  - destruct w. unfold record_events. cbn. by rewrite app_nil_r.
  - cbn. rewrite IH. unfold record_events. cbn.
    by rewrite <- app_assoc.
Qed.

Lemma tb_add_scalars_eq prefix (summaries : gmap string V) step w :
  tb_add_scalars prefix summaries step w
  = (inr tt, record_events (tb_events (tb_writer (self w)) prefix summaries step) w).
Proof.
  unfold tb_add_scalars, tb_events. cbn.
  destruct (tb_writer (self w)).
  - apply for_each_emit.
  - destruct w. unfold record_events. cbn. by rewrite app_nil_r.
Qed.

Lemma bind_tb_add_scalars {B} prefix (summaries : gmap string V) step
    (k : unit -> @M V T B) w :
  bind (tb_add_scalars prefix summaries step) k w
  = k tt (record_events (tb_events (tb_writer (self w)) prefix summaries step) w).
Proof. unfold bind at 1. by rewrite tb_add_scalars_eq. Qed.

End Execution.

(** Symbolic execution of a monadic program applied to a world: reduce,
    reassociate, and split on the outcome of the statement at the head. *)
Ltac exec_unfold :=
  unfold run_batch, Trainer_run;
  unfold Trainer_test, Trainer_init,
    Trainer_check_experiment, setup_hook, os_makedirs, pickle_dump,
    model_train, model_eval, model_increment_global_step,
    on_fs, get_model, get_args, get_optimizer, get_experiment, get_self.

Ltac exec_step :=
  match goal with
  | |- context [bind (bind _ _) _ _] => rewrite bind_assoc
  | |- context [bind (tb_add_scalars _ _ _) _ _] => rewrite bind_tb_add_scalars
  | |- context [tb_add_scalars _ _ _ _] => rewrite tb_add_scalars_eq
  | |- context [bind (lift ?x) _ _] => destruct x eqn:?
  | |- context [bind (attr ?x) _ _] => destruct x eqn:?
  | |- context [bind (assert_ ?x) _ _] => destruct x eqn:?
  | |- context [bind (when ?x _) _ _] => destruct x eqn:?
  | |- context [lift ?x _ = _] => destruct x eqn:?
  | |- context [assert_ ?x _ = _] => destruct x eqn:?
  | |- context [when ?x _ _ = _] => destruct x eqn:?
  | |- context [bind (if ?x then _ else _) _ _] => destruct x eqn:?
  | |- context [bind (match ?x with Some _ => _ | None => _ end) _ _] =>
      destruct x eqn:?
  end.

Ltac exec_finish :=
  cbv beta iota delta [set_model set_self set_progress set_train_summarizers
    set_fs set_experiment set_device emit modify ret raise record_events];
  cbn.

Ltac exec := exec_unfold; cbn; repeat (exec_step; cbn); exec_finish.


Section TestPass.

Context {V T : Type} (C : @Collab V T).
Implicit Types (w : @World V T).

Lemma tb_events_in_eval tb prefix (g : gmap string V) step s :
  Forall (in_eval s)
         (map (fun ev => (ev, Some (mkModel s false)))
              (tb_events tb prefix g step)).
Proof.
  unfold tb_events. destruct tb; [|constructor].
  apply Forall_map, Forall_map, Forall_forall. intros kv _. by split.
Qed.

(** What an evaluation pass does to the world, whatever its outcome. *)
Lemma Trainer_test_inv epoch w r w' m :
  model (experiment w) = Some m ->
  Trainer_test C epoch w = (r, w') ->
  exists b h f body,
    w' = mkWorld (exp_with_model (experiment w)
                                 (Some (mkModel (global_step m) b)))
                 (self_with_histories (self w) (train_history (self w))
                                      (test_history (self w) ++ h))
                 (progress w) (train_summarizers w) f
                 (trace w ++ (EvModelEval, Some m) :: body)
    /\ (b = true <-> r = inr tt)
    /\ Forall (in_eval (global_step m)) body.
Proof.
  destruct w as [[dev dl mo ar rd op me] [th teh sd imf ckf lp tb] pr ts f tr].
  cbn. intros ->. exec.
  all: intros [= <- <-].
  all: match goal with
       | |- context [History_add _ ?g ?s] => eexists _, [(s, g)], _, _
       | _ => eexists _, [], _, _
       end; unfold History_add; rewrite ?app_nil_r;
       (split; [ rewrite <- ?app_assoc; cbn; reflexivity
               | split; [ split; done | ] ]).
  all: repeat first [ by apply Forall_nil | apply Forall_cons; split; [by split|]
                    | apply Forall_app; split | apply tb_events_in_eval ].
Qed.

(** C7, as amended.  The model is switched to eval mode at the start of
    [_test] and every later call of the pass is made in eval mode.  When
    [_test] returns, the model is back in train mode.  When the test
    procedure, the additional-testing hook, the logging or the persistence
    raises, the exception leaves [_test] at once and the model stays in
    eval mode. *)
Theorem test_pass_mode epoch w r w' m :
  model (experiment w) = Some m ->
  Trainer_test C epoch w = (r, w') ->
  exists body,
    trace w' = trace w ++ (EvModelEval, Some m) :: body
    /\ Forall (fun en => training <$> en.2 = Some false) body
    /\ (r = inr tt -> training <$> model (experiment w') = Some true)
    /\ (forall exc, r = inl exc ->
        training <$> model (experiment w') = Some false).
Proof.
  intros Hm Hrun.
  destruct (Trainer_test_inv epoch w r w' m Hm Hrun)
    as (b & h & f & body & -> & Hb & Hbody).
  exists body. split; [done|]. split.
  { eapply Forall_impl; [exact Hbody|]. intros [ev st] [Hst _].
    cbn in *. by rewrite Hst. }
  cbn. split.
  - intros Hr. apply Hb in Hr. by rewrite Hr.
  - intros exc Hr. destruct b; [|done].
    destruct Hb as [Hb _]. rewrite Hr in Hb. by specialize (Hb eq_refl).
Qed.

End TestPass.

Section Events.

Context {V T : Type} (C : @Collab V T).
Implicit Types (w : @World V T).

Lemma bind_unfold {A B} (m : @M V T A) (k : A -> @M V T B) w :
  bind m k w = match m w with
               | (inl e, w') => (inl e, w')
               | (inr a, w') => k a w'
               end.
Proof. reflexivity. Qed.

Lemma fmap_fst_stamp (st : option Model) (evs : list (@Event V)) :
  (map (fun ev => (ev, st)) evs).*1 = evs.
Proof. induction evs as [|ev evs IH]; cbn; [done | by rewrite IH]. Qed.

Lemma filter_none {A} (p : A -> bool) (l : list A) :
  Forall (fun x => p x = false) l -> List.filter p l = [].
Proof.
  induction 1 as [|x l Hx _ IH]; cbn; [done | by rewrite Hx].
Qed.

Lemma in_eval_events (p : @Event V -> bool) s body :
  (forall ev, test_kind ev = true -> p ev = false) ->
  Forall (in_eval s) body -> List.filter p body.*1 = [].
Proof.
  intros Hp Hb. apply filter_none, Forall_fmap.
  eapply Forall_impl; [exact Hb|]. intros [ev st] [_ Hk]. by apply Hp.
Qed.

Lemma tb_events_filter (p : @Event V -> bool) tb prefix (g : gmap string V) step :
  (forall tag v s, p (EvTbAddScalar tag v s) = false) ->
  List.filter p (tb_events tb prefix g step) = [].
Proof.
  intros Hp. apply filter_none. unfold tb_events. destruct tb; [|constructor].
  apply Forall_map, Forall_forall. intros kv _. apply Hp.
Qed.

Lemma checkpoint_invoked_filter (evs : list (@Event V)) :
  checkpoint_invoked evs <-> List.filter is_checkpoint evs <> [].
Proof.
  unfold checkpoint_invoked. split.
  - intros [folder Hin] Hnil.
    assert (Hf : List.In (EvCheckpoint folder) (List.filter is_checkpoint evs)).
    { apply List.filter_In. split; [by apply list_elem_of_In | done]. }
    rewrite Hnil in Hf. destruct Hf.
  - intros Hne. destruct (List.filter is_checkpoint evs) as [|ev l] eqn:Hf; [done|].
    assert (Hin : List.In ev (List.filter is_checkpoint evs)) by (rewrite Hf; by left).
    apply List.filter_In in Hin as [Hin Hk].
    destruct ev; try discriminate. eexists. apply list_elem_of_In, Hin.
Qed.

Lemma py_mod_multiple a b : py_mod a b = inr 0 <-> b <> 0 /\ (b | a).
Proof.
  unfold py_mod. destruct (Z.eqb_spec b 0) as [->|Hb].
  - split; [done | by intros [? _]].
  - split.
    + intros [= H]. split; [done|]. by apply Z.mod_divide.
    + intros [_ H]. f_equal. by apply Z.mod_divide.
Qed.

Lemma py_mod_trans s c t :
  py_mod s c = inr 0 -> py_mod c t = inr 0 -> py_mod s t = inr 0.
Proof.
  rewrite !py_mod_multiple. intros [_ H1] [Ht H2]. split; [done|].
  by etrans.
Qed.

Lemma test_kind_not_step (ev : @Event V) :
  test_kind ev = true -> is_step_hook ev = false.
Proof. by destruct ev. Qed.

Lemma test_kind_not_checkpoint (ev : @Event V) :
  test_kind ev = true -> is_checkpoint ev = false.
Proof. by destruct ev. Qed.

Lemma test_kind_not_zero_grad (ev : @Event V) :
  test_kind ev = true -> is_zero_grad ev = false.
Proof. by destruct ev. Qed.

End Events.

(** Symbolic execution of the loop body: the evaluation pass is replaced
    by what [Trainer_test_inv] says of it. *)
Ltac batch_unfold :=
  unfold run_batch, Trainer_run,
    Trainer_check_experiment, setup_hook, os_makedirs, pickle_dump,
    model_train, model_eval, model_increment_global_step,
    on_fs, get_model, get_args, get_optimizer, get_experiment, get_self.

Ltac batch_step :=
  match goal with
  | |- context [bind (Trainer_test ?C ?ep) ?k ?w] =>
      rewrite (bind_unfold (Trainer_test C ep) k w);
      let H := fresh "Htest" in
      let H' := fresh "Hpass" in
      destruct (Trainer_test C ep w) as [[?|[]] ?] eqn:H;
      pose proof H as H';
      (eapply Trainer_test_inv in H; [|reflexivity]);
      destruct H as (?b & ?h & ?f & ?body & -> & ?Hb & ?Hbody)
  | _ => exec_step
  end.

Ltac exec_batch := batch_unfold; cbn; repeat (batch_step; cbn); exec_finish.

Ltac new_events :=
  unfold events; cbn [trace];
  rewrite ?fmap_app, ?fmap_fst_stamp, <- ?app_assoc;
  first [ reflexivity | symmetry; apply app_nil_r ].

(** Computing the events of one kind in an explicit list of new events. *)
Ltac filt :=
  rewrite ?fmap_app, ?fmap_cons, ?fmap_nil; cbn [fst];
  rewrite ?List.filter_app; cbn [List.filter is_step_hook is_checkpoint];
  repeat match goal with
         | H : Forall (in_eval _) ?body |- context [List.filter is_step_hook ?body.*1] =>
             rewrite (in_eval_events is_step_hook _ body test_kind_not_step H)
         | H : Forall (in_eval _) ?body |- context [List.filter is_checkpoint ?body.*1] =>
             rewrite (in_eval_events is_checkpoint _ body test_kind_not_checkpoint H)
         | |- context [List.filter is_step_hook (tb_events _ _ _ _)] =>
             rewrite (tb_events_filter is_step_hook) by done
         | |- context [List.filter is_checkpoint (tb_events _ _ _ _)] =>
             rewrite (tb_events_filter is_checkpoint) by done
         end;
  cbn [app].

Ltac arith_facts :=
  repeat match goal with
         | H : (_ =? _) = true |- _ => apply Z.eqb_eq in H
         | H : (_ =? _) = false |- _ => apply Z.eqb_neq in H
         | H : (_ <? _) = true |- _ => apply Z.ltb_lt in H
         | H : (_ <? _) = false |- _ => apply Z.ltb_ge in H
         end.

Section Iteration.

Context {V T : Type} (C : @Collab V T).
Implicit Types (w : @World V T).

(** C8. In every iteration of the training loop the per-step hooks are
    called in the order: zero gradients, forward pass, backward on the
    loss, accumulation of the metrics into the summarizers, optimizer
    step, increment of the global step.  An iteration that raises has
    called a prefix of that sequence and leaves the step counter as it
    was; an iteration that returns has called each hook once and has
    incremented the global step by exactly one. *)
Theorem run_batch_step_sequence epoch xy w r w' :
  run_batch C epoch xy w = (r, w') ->
  exists evs,
    events w' = events w ++ evs
    /\ List.filter is_step_hook evs `prefix_of` step_hooks
    /\ (r = inr tt ->
        List.filter is_step_hook evs = step_hooks
        /\ exists m m', model (experiment w) = Some m
                        /\ model (experiment w') = Some m'
                        /\ global_step m' = global_step m + 1)
    /\ (forall exc, r = inl exc ->
        global_step <$> model (experiment w')
        = global_step <$> model (experiment w)).
Proof.
  destruct w as [[dev dl mo ar rd op me] [th teh sd imf ckf lp tb] pr ts f tr].
  exec_batch.
  all: intros [= <- <-].
  all: eexists; split; [new_events|].
  all: filt.
  all: split; [by eexists|].
  all: split; [intros ?; try done | intros ? ?; try done].
  all: try (split; [reflexivity | by eexists _, _]).
  all: try by subst.
Qed.

(** In an iteration of [run] that starts at step [s], with the
    divisibility checked at construction: the model checkpoint hook is
    invoked only if [s mod checkpoint_interval = 0] and [s > 0]; and when
    both hold and the evaluation pass of the iteration returns, the hook is
    invoked, once, with the trainer's checkpoint folder. *)
Lemma run_batch_checkpoint epoch xy w r w' m a :
  model (experiment w) = Some m ->
  args (experiment w) = Some a ->
  py_mod (checkpoint_interval a) (test_log_interval a) = inr 0 ->
  run_batch C epoch xy w = (r, w') ->
  exists evs,
    events w' = events w ++ evs
    /\ (checkpoint_invoked evs ->
        py_mod (global_step m) (checkpoint_interval a) = inr 0
        /\ 0 < global_step m)
    /\ (py_mod (global_step m) (checkpoint_interval a) = inr 0 ->
        0 < global_step m ->
        (Trainer_test C epoch w).1 = inr tt ->
        List.filter is_checkpoint evs
        = [EvCheckpoint (checkpoint_folder (self w))]).
Proof.
  destruct w as [[dev dl mo ar rd op me] [th teh sd imf ckf lp tb] pr ts f tr].
  cbn. intros -> -> Hdiv.
  remember (Trainer_test C epoch _) as pass eqn:Hpass0.
  exec_batch.
  all: intros [= <- <-].
  all: eexists; split; [new_events|].
  all: rewrite checkpoint_invoked_filter; filt.
  all: arith_facts; subst.
  all: split; [ first [ done | by intros _ ] | intros Hs Hpos Hret ].
  all: try reflexivity.
  all: try (cbn [fst] in Hret; discriminate).
  all: try congruence.
  all: try lia.
  all: pose proof (py_mod_trans _ _ _ Hs Hdiv); congruence.
Qed.

(** An iteration that starts without a progress bar, at a step that is not
    a multiple of [test_log_interval], raises; when it got as far as the
    summarizers, the exception is the [AttributeError] of
    [progress.update()] on [None]. *)
Lemma run_batch_no_progress epoch xy w m a :
  model (experiment w) = Some m ->
  args (experiment w) = Some a ->
  progress w = None ->
  py_mod (global_step m) (test_log_interval a) <> inr 0 ->
  exists exc w' evs,
    run_batch C epoch xy w = (inl exc, w')
    /\ events w' = events w ++ evs
    /\ model (experiment w') = model (experiment w)
    /\ (EvSummarizersAdd ∈ evs -> exc = AttributeError)
    /\ (EvProgressUpdate ∉ evs)
    /\ ~ (EvTqdm (test_log_interval a) ∈ evs).
Proof.
  destruct w as [[dev dl mo ar rd op me] [th teh sd imf ckf lp tb] pr ts f tr].
  cbn. intros -> -> -> Hstep.
  match goal with
  | |- exists exc w' evs, ?X = _ /\ _ => destruct X as [r w'] eqn:Hrun
  end.
  revert Hrun. exec_batch.
  all: intros [= <- <-].
  all: arith_facts; subst; try congruence.
  all: eexists _, _, _; split; [reflexivity|]; split; [new_events|].
  all: split; [reflexivity|].
  all: rewrite ?fmap_cons, ?fmap_nil; cbn [fst app].
  all: split; [intros Hin | split; intros Hin].
  all: try reflexivity.
  all: by repeat (apply elem_of_cons in Hin as [Hin|Hin]; [discriminate|]);
         apply elem_of_nil in Hin.
Qed.

End Iteration.

Section Stamped.

Context {V : Type}.
Implicit Types (tr : list (@Event V * option Model)).

Lemma stamped_body_filter (p : @Event V -> bool) s tr :
  (forall ev, test_kind ev = true -> p ev = false) ->
  Forall (in_eval s) tr -> List.filter (on_event p) tr = [].
Proof.
  intros Hp Hb. apply filter_none.
  eapply Forall_impl; [exact Hb|]. intros [ev st] [_ Hk]. by apply Hp.
Qed.

Lemma stamped_tb_filter (p : @Event V -> bool) st tb prefix
    (g : gmap string V) step :
  (forall tag v s, p (EvTbAddScalar tag v s) = false) ->
  List.filter (on_event p)
              (map (fun ev => (ev, st)) (tb_events tb prefix g step)) = [].
Proof.
  intros Hp. apply filter_none. unfold tb_events. destruct tb; [|constructor].
  apply Forall_map, Forall_map, Forall_forall. intros kv _. apply Hp.
Qed.

Lemma in_filter (p : @Event V * option Model -> bool) tr en :
  en ∈ tr -> p en = true -> en ∈ List.filter p tr.
Proof.
  intros Hin Hp. apply list_elem_of_In, List.filter_In.
  split; [by apply list_elem_of_In | done].
Qed.

Lemma filter_in (p : @Event V * option Model -> bool) tr en :
  en ∈ List.filter p tr -> en ∈ tr.
Proof.
  intros Hin. apply list_elem_of_In in Hin. apply List.filter_In in Hin as [Hin _].
  by apply list_elem_of_In.
Qed.

(** The checkpoint properties of a trace, from its checkpoint and
    zero-gradient entries. *)
Lemma cadence_from_filters a folder tr s :
  (List.filter (on_event is_checkpoint) tr = []
   \/ (exists b, List.filter (on_event is_checkpoint) tr
                 = [(EvCheckpoint folder, Some (mkModel s b))])
      /\ checkpoint_due a s) ->
  (List.filter (on_event is_zero_grad) tr = []
   \/ (exists b, List.filter (on_event is_zero_grad) tr
                 = [(EvZeroGrad, Some (mkModel s b))])
      /\ (checkpoint_due a s ->
          List.filter (on_event is_checkpoint) tr <> [])) ->
  checkpoints_on_cadence a folder tr /\ checkpoints_when_due a folder tr.
Proof.
  intros Hck Hzg. split.
  - intros f mo Hin.
    apply (in_filter (on_event is_checkpoint)) in Hin; [|done].
    destruct Hck as [Hck|[[b Hck] Hdue]]; rewrite Hck in Hin.
    + by apply elem_of_nil in Hin.
    + apply list_elem_of_singleton in Hin. injection Hin as -> ->.
      split; [done|]. by eexists.
  - intros m Hin Hdue.
    apply (in_filter (on_event is_zero_grad)) in Hin; [|done].
    destruct Hzg as [Hzg|[[b Hzg] Hne]]; rewrite Hzg in Hin.
    + by apply elem_of_nil in Hin.
    + apply list_elem_of_singleton in Hin. injection Hin as ->.
      specialize (Hne Hdue).
      destruct Hck as [Hck|[[b' Hck] _]]; [done|].
      exists (mkModel s b'). split; [|done].
      apply (filter_in (on_event is_checkpoint)). rewrite Hck.
      by apply list_elem_of_singleton.
Qed.

Lemma checkpoints_on_cadence_app a folder tr1 tr2 :
  checkpoints_on_cadence a folder tr1 ->
  checkpoints_on_cadence a folder tr2 ->
  checkpoints_on_cadence a folder (tr1 ++ tr2).
Proof.
  intros H1 H2 f mo Hin. apply elem_of_app in Hin as [Hin|Hin]; eauto.
Qed.

Lemma checkpoints_when_due_app a folder tr1 tr2 :
  checkpoints_when_due a folder tr1 ->
  checkpoints_when_due a folder tr2 ->
  checkpoints_when_due a folder (tr1 ++ tr2).
Proof.
  intros H1 H2 m Hin Hdue. apply elem_of_app in Hin as [Hin|Hin].
  - destruct (H1 m Hin Hdue) as (m' & Hm' & Hs). exists m'.
    split; [|done]. apply elem_of_app. by left.
  - destruct (H2 m Hin Hdue) as (m' & Hm' & Hs). exists m'.
    split; [|done]. apply elem_of_app. by right.
Qed.

End Stamped.

(** Computing the entries of one kind in an explicit stamped trace. *)
Ltac stamped_filt :=
  rewrite ?List.filter_app;
  cbn [List.filter on_event is_checkpoint is_zero_grad fst];
  repeat match goal with
         | H : Forall (in_eval _) ?body
           |- context [List.filter (on_event is_checkpoint) ?body] =>
             rewrite (stamped_body_filter is_checkpoint _ body
                        test_kind_not_checkpoint H)
         | H : Forall (in_eval _) ?body
           |- context [List.filter (on_event is_zero_grad) ?body] =>
             rewrite (stamped_body_filter is_zero_grad _ body
                        test_kind_not_zero_grad H)
         | |- context [List.filter (on_event is_checkpoint)
                                   (map _ (tb_events _ _ _ _))] =>
             rewrite (stamped_tb_filter is_checkpoint) by done
         | |- context [List.filter (on_event is_zero_grad)
                                   (map _ (tb_events _ _ _ _))] =>
             rewrite (stamped_tb_filter is_zero_grad) by done
         end;
  cbn [app].

Section Cadence.

Context {V T : Type} (C : @Collab V T).
Implicit Types (w : @World V T).

(** One iteration: the checkpoint hook against the cadence, and what the
    iteration leaves untouched. *)
Lemma run_batch_cadence epoch xy w r w' a :
  args (experiment w) = Some a ->
  py_mod (checkpoint_interval a) (test_log_interval a) = inr 0 ->
  run_batch C epoch xy w = (r, w') ->
  args (experiment w') = Some a
  /\ checkpoint_folder (self w') = checkpoint_folder (self w)
  /\ exists tr,
       trace w' = trace w ++ tr
       /\ checkpoints_on_cadence a (checkpoint_folder (self w)) tr
       /\ checkpoints_when_due a (checkpoint_folder (self w)) tr.
Proof.
  destruct w as [[dev dl mo ar rd op me] [th teh sd imf ckf lp tb] pr ts f tr].
  cbn. intros -> Hdiv.
  destruct mo as [[s b0]|]; exec_batch.
  all: intros [= <- <-]; cbn [experiment self args checkpoint_folder trace].
  all: split; [reflexivity|]; split; [reflexivity|].
  all: eexists; split;
    [ rewrite <- ?app_assoc; first [reflexivity | symmetry; apply app_nil_r] |].
  all: arith_facts; subst.
  all: first [ apply (cadence_from_filters _ _ _ s)
             | apply (cadence_from_filters _ _ _ 0) ].
  all: stamped_filt.
  all: try by left.
  all: try (right; split; [by eexists|]).
  all: unfold checkpoint_due.
  all: try by split.
  all: try (intros [Hs Hpos]).
  all: try done.
  all: exfalso; try congruence; try lia.
  all: pose proof (py_mod_trans _ _ _ Hs Hdiv); congruence.
Qed.

(** A relation that is reflexive, transitive and established by every
    execution of the body is established by the loop, whatever its
    outcome. *)
Lemma for_each_rel {A} (R : @World V T -> @World V T -> Prop)
    (body : A -> @M V T unit) (l : list A) :
  (forall w, R w w) ->
  (forall w1 w2 w3, R w1 w2 -> R w2 w3 -> R w1 w3) ->
  (forall x w r w', body x w = (r, w') -> R w w') ->
  forall w r w', for_each l body w = (r, w') -> R w w'.
Proof.
  intros Hrefl Htrans Hbody.
  induction l as [|x l IH]; intros w r w'; cbn.
  - intros [= <- <-]. apply Hrefl.
  - rewrite bind_unfold.
    destruct (body x w) as [[e|[]] w1] eqn:Hx.
    + intros [= <- <-]. by eapply Hbody.
    + intros Hrest. eapply Htrans; [by eapply Hbody | by eapply IH].
Qed.

Lemma cadence_kept_refl a folder w : cadence_kept a folder w w.
Proof.
  intros Ha Hf. split; [done|]. split; [done|].
  exists []. split; [by rewrite app_nil_r|].
  split; [intros ? ? Hin | intros ? Hin]; by apply elem_of_nil in Hin.
Qed.

Lemma cadence_kept_trans a folder w1 w2 w3 :
  cadence_kept a folder w1 w2 -> cadence_kept a folder w2 w3 ->
  cadence_kept a folder w1 w3.
Proof.
  intros H12 H23 Ha Hf.
  destruct (H12 Ha Hf) as (Ha2 & Hf2 & tr1 & Htr1 & Hon1 & Hdue1).
  destruct (H23 Ha2 Hf2) as (Ha3 & Hf3 & tr2 & Htr2 & Hon2 & Hdue2).
  split; [done|]. split; [done|].
  exists (tr1 ++ tr2). split; [by rewrite Htr2, Htr1, app_assoc|].
  split; [by apply checkpoints_on_cadence_app
         | by apply checkpoints_when_due_app].
Qed.

Lemma run_batch_cadence_kept epoch xy w r w' a folder :
  py_mod (checkpoint_interval a) (test_log_interval a) = inr 0 ->
  run_batch C epoch xy w = (r, w') ->
  cadence_kept a folder w w'.
Proof.
  intros Hdiv Hrun Ha Hf.
  destruct (run_batch_cadence epoch xy w r w' a Ha Hdiv Hrun)
    as (Ha' & Hf' & tr & Htr & Hon & Hdue).
  rewrite Hf in *. split; [done|]. split; [done|]. by exists tr.
Qed.

(** C6. In every execution of [run], with the divisibility checked at
    construction: the checkpoint hook is only called (with the trainer's
    checkpoint folder) at a step [s] with [s mod checkpoint_interval = 0]
    and [s > 0]; and at every such step whose optimize-step sequence
    began, the checkpoint hook has been called.  The step of a call is the
    step of the model in its trace entry. *)
Theorem checkpoint_cadence w r w' a :
  args (experiment w) = Some a ->
  py_mod (checkpoint_interval a) (test_log_interval a) = inr 0 ->
  Trainer_run C w = (r, w') ->
  exists tr,
    trace w' = trace w ++ tr
    /\ (forall f mo, (EvCheckpoint f, mo) ∈ tr ->
        f = checkpoint_folder (self w)
        /\ exists m, mo = Some m
                     /\ py_mod (global_step m) (checkpoint_interval a) = inr 0
                     /\ 0 < global_step m)
    /\ (forall m, (EvZeroGrad, Some m) ∈ tr ->
        py_mod (global_step m) (checkpoint_interval a) = inr 0 ->
        0 < global_step m ->
        exists m', (EvCheckpoint (checkpoint_folder (self w)), Some m') ∈ tr
                   /\ global_step m' = global_step m).
Proof.
  intros Ha Hdiv Hrun.
  assert (Hkept : cadence_kept a (checkpoint_folder (self w)) w w').
  { revert Hrun.
    destruct w as [[dev dl mo ar rd op me] [th teh sd imf ckf lp tb] pr ts f tr].
    unfold Trainer_run, model_train, get_model, get_experiment. cbn.
    destruct dl as [d|]; cbn;
      [|intros [= <- <-]; apply cadence_kept_refl].
    destruct mo as [m|]; cbn;
      [|intros [= <- <-]; intros ? ?; cbn; split; [done|]; split; [done|];
        exists []; split; [by rewrite app_nil_r|];
        split; [intros ? ? Hin | intros ? Hin]; by apply elem_of_nil in Hin].
    intros Hloop.
    match type of Hloop with
    | for_each _ _ ?w1 = _ => apply (cadence_kept_trans _ _ _ w1)
    end.
    - intros _ _. cbn. split; [done|]. split; [done|].
      exists [(EvModelTrain, Some m)]. split; [reflexivity|].
      split; [intros ? ? Hin | intros ? Hin];
        apply list_elem_of_singleton in Hin; discriminate.
    - eapply for_each_rel; [apply cadence_kept_refl | apply cadence_kept_trans
                           | | exact Hloop].
      intros epoch w1 r1 w1' Hepoch.
      eapply for_each_rel; [apply cadence_kept_refl | apply cadence_kept_trans
                           | | exact Hepoch].
      intros xy w2 r2 w2' Hbatch. by eapply run_batch_cadence_kept. }
  destruct (Hkept Ha eq_refl) as (_ & _ & tr & Htr & Hon & Hdue).
  exists tr. split; [done|]. split; [exact Hon|].
  intros m Hin Hs Hpos. by apply Hdue.
Qed.

End Cadence.

Section OffCadence.

Context {V T : Type} (C : @Collab V T).
Implicit Types (w : @World V T).

Lemma range1_cons n : 1 <= n -> exists l, range1 n = 1 :: l.
Proof.
  intros Hn. unfold range1.
  destruct (Z.to_nat n) as [|k] eqn:Hk; [lia|].
  cbn. by eexists.
Qed.

(** C9. When the first batch of [run] starts at a step that is not a
    multiple of [test_log_interval], [run] raises during that batch: no
    progress bar was created, the step counter is not incremented, and
    once the metrics are in the summarizers the exception is the
    [AttributeError] of the call of [update] on [None]. *)
Theorem run_fails_off_cadence w m a d xy rest :
  model (experiment w) = Some m ->
  args (experiment w) = Some a ->
  dataloaders (experiment w) = Some d ->
  train d = xy :: rest ->
  1 <= max_epochs (experiment w) ->
  py_mod (global_step m) (test_log_interval a) <> inr 0 ->
  exists exc w' evs,
    Trainer_run C w = (inl exc, w')
    /\ events w' = events w ++ EvModelTrain :: evs
    /\ global_step <$> model (experiment w') = Some (global_step m)
    /\ (EvSummarizersAdd ∈ evs -> exc = AttributeError)
    /\ (EvProgressUpdate ∉ evs)
    /\ ~ (EvTqdm (test_log_interval a) ∈ evs).
Proof.
  destruct w as [[dev dl mo ar rd op me] [th teh sd imf ckf lp tb] pr ts f tr].
  destruct d as [loader].
  cbn. intros -> -> -> -> Hme Hstep.
  destruct (range1_cons me Hme) as [epochs Hepochs].
  unfold Trainer_run, model_train, get_model, get_experiment.
  cbn. rewrite Hepochs. cbn [for_each].
  rewrite !bind_assoc, bind_unfold.
  match goal with
  | |- context [run_batch C 1 xy ?w1] =>
      destruct (run_batch_no_progress C 1 xy w1 (mkModel (global_step m) true) a)
        as (exc & w' & evs & Hrun & Hev & Hmodel & Hadd & Hupd & Htq);
        [reflexivity | reflexivity | reflexivity | exact Hstep |];
      rewrite Hrun
  end.
  exists exc, w', evs. split; [reflexivity|].
  split.
  { rewrite Hev. unfold events. cbn [trace]. rewrite fmap_app, <- app_assoc.
    reflexivity. }
  split; [by rewrite Hmodel|]. done.
Qed.

End OffCadence.

Section Construction.

Context {V T : Type} (C : @Collab V T).
Implicit Types (w : @World V T).

Lemma makedirs_inr p (f f' : @FS V) :
  makedirs p f = inr f' ->
  p ∈ dirs f' /\ dirs f ⊆ dirs f' /\ files f' = files f.
Proof.
  unfold makedirs. case_bool_decide; [done|]. intros [= <-]. cbn.
  split; [set_solver | split; [set_solver | done]].
Qed.

Lemma write_file_inr p c (f f' : @FS V) :
  write_file p c f = inr f' ->
  dirs f' = dirs f /\ files f' = <[p := c]> (files f).
Proof.
  unfold write_file. destruct (_ || _); [|done]. by intros [= <-].
Qed.

Ltac not_in_list Hin :=
  rewrite ?fmap_app, ?fmap_cons, ?fmap_nil in Hin; cbn [fst app] in Hin;
  repeat (apply elem_of_cons in Hin as [Hin|Hin]; [discriminate|]);
  by apply elem_of_nil in Hin.

Ltac dirs_chain :=
  repeat match goal with
         | H : ?p ∈ dirs ?f |- ?p ∈ dirs ?f => exact H
         | H : dirs ?f' = dirs ?f |- _ ∈ dirs ?f' => rewrite H
         | H : dirs ?f ⊆ dirs ?f' |- _ ∈ dirs ?f' =>
             apply (proj1 (elem_of_subseteq _ _) H)
         end.

(** Construction stops at its first statement when the intervals do not
    divide: nothing has been done. *)
Lemma Trainer_init_indivisible opt w a :
  args (experiment w) = Some a ->
  py_mod (checkpoint_interval a) (test_log_interval a) <> inr 0 ->
  Trainer_init C opt w
  = (inl (if test_log_interval a =? 0 then ZeroDivisionError
          else AssertionError), w).
Proof.
  destruct w as [[dev dl mo ar rd op me] [th teh sd imf ckf lp tb] pr ts f tr].
  cbn. intros -> Hdiv. exec_unfold. cbn.
  unfold py_mod in *.
  destruct (test_log_interval a =? 0); cbn; [done|].
  destruct (Z.eqb_spec (checkpoint_interval a mod test_log_interval a) 0)
    as [Hz|Hz]; cbn; [|done].
  by rewrite Hz in Hdiv.
Qed.

(** What a construction does once the intervals divide, whatever its
    outcome. *)
Lemma Trainer_init_inv opt w r w' a desc :
  args (experiment w) = Some a ->
  run_description (experiment w) = Some desc ->
  py_mod (checkpoint_interval a) (test_log_interval a) = inr 0 ->
  Trainer_init C opt w = (r, w') ->
  exists evs,
    events w' = events w ++ evs
    /\ evs `prefix_of` init_events C a desc opt
    /\ (r = inr tt -> evs = init_events C a desc opt)
    /\ (EvCheckExperiment opt ∈ evs ->
        evs = init_events C a desc opt
        /\ (r = inr tt \/ r = inl AssertionError)
        /\ (r = inr tt <->
            None ∉ check_experiment_attributes (experiment w') opt)
        /\ (dry_run a = false ->
            let fstr := folder_str (get_date_str C) desc in
            result_folder fstr ∈ dirs (fs w')
            /\ imgs_folder fstr ∈ dirs (fs w')
            /\ ckpt_folder fstr ∈ dirs (fs w')
            /\ (have_tensorboard C = true -> tboard_folder fstr ∈ dirs (fs w'))
            /\ files (fs w') !! config_file fstr = Some (PArgs a)))
    /\ (dry_run a = true -> fs w' = fs w).
Proof.
  destruct w as [[dev dl mo ar rd op me] [th teh sd imf ckf lp tb] pr ts f tr].
  destruct a as [ci ti li se nc dr].
  cbn. intros -> -> Hdiv.
  unfold init_events. exec_unfold.
  destruct (have_tensorboard C) eqn:Htb, dr, opt.
  all: cbn; rewrite ?Hdiv; cbn.
  all: repeat (exec_step; cbn); exec_finish.
  all: intros [= <- <-].
  all: eexists; split; [new_events|].
  all: split; [by eexists|].
  all: split; [by intros ?|].
  all: split; [|by intros ?].
  all: intros Hin; try not_in_list Hin.
  all: split; [reflexivity|].
  all: split; [by (left + right)|].
  all: cbn [experiment fs].
  all: split;
    [ first [ apply negb_true_iff, bool_decide_eq_false in Heqb
            | apply negb_false_iff, bool_decide_eq_true in Heqb ];
      split; try done
    | try done ].
  all: intros _.
  all: repeat match goal with
         | H : makedirs _ _ = inr _ |- _ =>
             apply makedirs_inr in H as (? & ? & ?)
         | H : write_file _ _ _ = inr _ |- _ =>
             apply write_file_inr in H as (? & ?)
         end.
  all: repeat split; try done; try intros _; try dirs_chain.
  all: try by match goal with
          | H : files _ = <[_ := _]> _ |- _ => rewrite H; apply lookup_insert_eq
          end.
Qed.

(** C4, as amended.  Construction first asserts that
    [checkpoint_interval] is a multiple of [test_log_interval] and does
    nothing when it is not; it then seeds, creates the run directories and
    persists the configuration (both skipped in a dry run), calls the setup
    hooks for the dataset, the model and, when asked, the optimizer, and
    only then validates that the collaborator is complete.  A construction
    that raises has done a prefix of that sequence. *)
Theorem init_order opt w r w' a desc :
  args (experiment w) = Some a ->
  run_description (experiment w) = Some desc ->
  Trainer_init C opt w = (r, w') ->
  (py_mod (checkpoint_interval a) (test_log_interval a) <> inr 0 ->
   w' = w /\ exists exc, r = inl exc)
  /\ (py_mod (checkpoint_interval a) (test_log_interval a) = inr 0 ->
      exists evs,
        events w' = events w ++ evs
        /\ evs `prefix_of` init_events C a desc opt
        /\ (r = inr tt -> evs = init_events C a desc opt)).
Proof.
  intros Ha Hd Hrun. split.
  - intros Hdiv. rewrite (Trainer_init_indivisible opt w a Ha Hdiv) in Hrun.
    injection Hrun as <- <-. split; [done | by eexists].
  - intros Hdiv.
    destruct (Trainer_init_inv opt w r w' a desc Ha Hd Hdiv Hrun)
      as (evs & Hev & Hpre & Hok & _).
    by exists evs.
Qed.

(** C5. When [checkpoint_interval] is not an integer multiple of
    [test_log_interval], construction raises at its first statement, with
    the world unchanged: before any directory, hook or training. *)
Theorem init_rejects_indivisible opt w a :
  args (experiment w) = Some a ->
  ~ (exists k, checkpoint_interval a = k * test_log_interval a) ->
  exists exc, Trainer_init C opt w = (inl exc, w).
Proof.
  intros Ha Hnot. eexists. apply Trainer_init_indivisible; [done|].
  intros Hdiv. apply py_mod_multiple in Hdiv as [_ Hdiv]. by apply Hnot.
Qed.

(** C10. The completeness check is the last statement of construction:
    when it is reached, the directories have been created and the
    configuration persisted (unless in a dry run) and the setup hooks have
    been called.  So when the check fails on an attribute that is [None],
    construction raises [AssertionError] and the directories and
    [config.pkl] are still on disk. *)
Theorem check_after_side_effects opt w r w' a desc :
  args (experiment w) = Some a ->
  run_description (experiment w) = Some desc ->
  Trainer_init C opt w = (r, w') ->
  exists evs,
    events w' = events w ++ evs
    /\ (EvCheckExperiment opt ∈ evs ->
        evs = init_events C a desc opt
        /\ (None ∈ check_experiment_attributes (experiment w') opt ->
            r = inl AssertionError
            /\ (dry_run a = false ->
                let fstr := folder_str (get_date_str C) desc in
                result_folder fstr ∈ dirs (fs w')
                /\ imgs_folder fstr ∈ dirs (fs w')
                /\ ckpt_folder fstr ∈ dirs (fs w')
                /\ (have_tensorboard C = true ->
                    tboard_folder fstr ∈ dirs (fs w'))
                /\ files (fs w') !! config_file fstr = Some (PArgs a)))).
Proof.
  intros Ha Hd Hrun.
  destruct (decide (py_mod (checkpoint_interval a) (test_log_interval a) = inr 0))
    as [Hdiv|Hdiv].
  - destruct (Trainer_init_inv opt w r w' a desc Ha Hd Hdiv Hrun)
      as (evs & Hev & _ & _ & Hcheck & _).
    exists evs. split; [done|]. intros Hin.
    destruct (Hcheck Hin) as (Hall & Hr & Hiff & Hfs).
    split; [done|]. intros Hnone. split; [|done].
    destruct Hr as [Hr|Hr]; [|done].
    by apply Hiff in Hr.
  - rewrite (Trainer_init_indivisible opt w a Ha Hdiv) in Hrun.
    injection Hrun as <- <-. exists []. split; [by rewrite app_nil_r|].
    intros Hin. by apply elem_of_nil in Hin.
Qed.

End Construction.

Section Histories.

Context {V T : Type} (C : @Collab V T).
Implicit Types (w : @World V T).

Lemma History_get_dict_snoc (h : @History V) rec :
  History_get_dict (h ++ [rec])
  = union_with (fun l1 l2 => Some (l1 ++ l2)) (History_get_dict h)
               ((fun v => [(rec.1, v)]) <$> rec.2).
Proof. unfold History_get_dict. by rewrite foldl_app. Qed.

Lemma steps_of_snoc (h : @History V) rec k :
  steps_of (History_get_dict (h ++ [rec])) k
  = steps_of (History_get_dict h) k
    ++ match rec.2 !! k with Some _ => [rec.1] | None => [] end.
Proof.
  unfold steps_of. rewrite History_get_dict_snoc, lookup_union_with, lookup_fmap.
  destruct (History_get_dict h !! k) as [l|], (rec.2 !! k) as [v|]; cbn;
    rewrite ?fmap_app, ?app_nil_r; done.
Qed.

(** A history alone is persisted in growing snapshots: the steps of a
    metric in the dictionary of a history are among those of any longer
    history. *)
Lemma History_steps_grow (h1 h2 : @History V) k :
  h1 `prefix_of` h2 ->
  steps_of (History_get_dict h1) k ⊆ steps_of (History_get_dict h2) k.
Proof.
  intros [h ->]. induction h as [|rec h IH] using rev_ind.
  - by rewrite app_nil_r.
  - rewrite app_assoc, steps_of_snoc. intros s Hs.
    apply elem_of_app. left. by apply IH.
Qed.

Lemma histories_grow_refl a w : histories_grow a w w.
Proof.
  intros Ha. split; [done|].
  split; exists []; rewrite app_nil_r; [split|]; done.
Qed.

Lemma histories_grow_trans a w1 w2 w3 :
  histories_grow a w1 w2 -> histories_grow a w2 w3 -> histories_grow a w1 w3.
Proof.
  intros H12 H23 Ha.
  destruct (H12 Ha) as (Ha2 & (h1 & Hh1 & Hk1) & (t1 & Ht1)).
  destruct (H23 Ha2) as (Ha3 & (h2 & Hh2 & Hk2) & (t2 & Ht2)).
  split; [done|]. split.
  - exists (h1 ++ h2). split; [by rewrite Hh2, Hh1, app_assoc|].
    by apply Forall_app.
  - exists (t1 ++ t2). by rewrite Ht2, Ht1, app_assoc.
Qed.

(** One iteration appends to the train history at most one record, keyed
    by the step before the batch, [s], when [(s + 1) mod log_interval] is
    zero. *)
Lemma run_batch_histories epoch xy w r w' a :
  run_batch C epoch xy w = (r, w') -> histories_grow a w w'.
Proof.
  destruct w as [[dev dl mo ar rd op me] [th teh sd imf ckf lp tb] pr ts f tr].
  intros Hrun Ha. cbn in Ha. subst ar. revert Hrun.
  exec_batch.
  all: intros [= <- <-]; cbn [experiment self args train_history test_history
                              self_with_histories exp_with_model].
  all: split; [reflexivity|].
  all: arith_facts; subst.
  all: unfold History_add.
  all: split;
    [ first [ by (eexists [_]; split; [reflexivity | by repeat constructor])
            | by (exists []; rewrite app_nil_r) ]
    | first [ by eexists | by (exists []; rewrite app_nil_r) ] ].
Qed.

(** Every record that [run] adds to the train history has a key [k] with
    [(k + 1) mod log_interval = 0]: the key is the step before the batch
    that completed the interval. *)
Lemma Trainer_run_histories w r w' a :
  Trainer_run C w = (r, w') -> histories_grow a w w'.
Proof.
  destruct w as [[dev dl mo ar rd op me] [th teh sd imf ckf lp tb] pr ts f tr].
  unfold Trainer_run, model_train, get_model, get_experiment. cbn.
  destruct dl as [d|]; cbn; [|intros [= <- <-]; apply histories_grow_refl].
  destruct mo as [m|]; cbn;
    [|intros [= <- <-]; intros ?; cbn; split; [done|];
      split; exists []; rewrite app_nil_r; [split|]; done].
  intros Hloop.
  match type of Hloop with
  | for_each _ _ ?w1 = _ => apply (histories_grow_trans _ _ w1)
  end.
  - intros ?. cbn. split; [done|].
    split; exists []; rewrite app_nil_r; [split|]; done.
  - eapply for_each_rel; [apply histories_grow_refl | apply histories_grow_trans
                         | | exact Hloop].
    intros epoch w1 r1 w1' Hepoch.
    eapply for_each_rel; [apply histories_grow_refl | apply histories_grow_trans
                         | | exact Hepoch].
    intros xy w2 r2 w2' Hbatch. by eapply run_batch_histories.
Qed.

End Histories.

Section DryRun.

Context {V T : Type} (C : @Collab V T).
Implicit Types (w : @World V T).

Lemma dry_kept_refl a w : dry_kept a w w.
Proof. by intros Ha. Qed.

Lemma dry_kept_trans a w1 w2 w3 :
  dry_kept a w1 w2 -> dry_kept a w2 w3 -> dry_kept a w1 w3.
Proof.
  intros H12 H23 Ha. destruct (H12 Ha) as [Ha2 Hf2].
  destruct (H23 Ha2) as [Ha3 Hf3]. split; [done|]. by rewrite Hf3.
Qed.

(** In a dry run the statements of the loop body write nothing
    themselves: with hooks that write nothing, the file system stays as it
    is.  The additional-testing and checkpoint hooks are called with their
    folders all the same. *)
Lemma run_batch_dry epoch xy w r w' a :
  dry_run a = true ->
  hooks_write_nothing C ->
  run_batch C epoch xy w = (r, w') -> dry_kept a w w'.
Proof.
  destruct w as [[dev dl mo ar rd op me] [th teh sd imf ckf lp tb] pr ts f tr].
  intros Hdry [Htest Hckpt] Hrun Ha. cbn in Ha. subst ar. revert Hrun.
  exec.
  all: intros [= <- <-]; cbn [experiment args fs exp_with_model].
  all: split; [reflexivity|].
  all: repeat match goal with
         | H : additional_testing C _ _ _ = inr _ |- _ => apply Htest in H
         | H : model_checkpoint C _ _ _ = inr _ |- _ => apply Hckpt in H
         end; subst; try reflexivity.
  all: by rewrite Hdry in *.
Qed.

(** In a dry run construction writes nothing: no directory, no
    [config.pkl]. *)
Lemma Trainer_init_dry opt w r w' a :
  args (experiment w) = Some a ->
  dry_run a = true ->
  Trainer_init C opt w = (r, w') -> fs w' = fs w.
Proof.
  destruct w as [[dev dl mo ar rd op me] [th teh sd imf ckf lp tb] pr ts f tr].
  destruct a as [ci ti li se nc dr].
  cbn. intros -> ->. exec.
  all: by intros [= <- <-].
Qed.

Lemma Trainer_run_dry w r w' a :
  dry_run a = true ->
  hooks_write_nothing C ->
  Trainer_run C w = (r, w') -> dry_kept a w w'.
Proof.
  intros Hdry Hhooks.
  destruct w as [[dev dl mo ar rd op me] [th teh sd imf ckf lp tb] pr ts f tr].
  unfold Trainer_run, model_train, get_model, get_experiment. cbn.
  destruct dl as [d|]; cbn; [|intros [= <- <-]; apply dry_kept_refl].
  destruct mo as [m|]; cbn; [|by intros [= <- <-]; intros ?].

  intros Hloop.
  match type of Hloop with
  | for_each _ _ ?w1 = _ => apply (dry_kept_trans _ _ w1)
  end.
  - by intros ?.
  - eapply for_each_rel; [apply dry_kept_refl | apply dry_kept_trans
                         | | exact Hloop].
    intros epoch w1 r1 w1' Hepoch.
    eapply for_each_rel; [apply dry_kept_refl | apply dry_kept_trans
                         | | exact Hepoch].
    intros xy w2 r2 w2' Hbatch. by eapply run_batch_dry.
Qed.

End DryRun.

(** * Further properties of construction *)

Section ConstructionMore.

Context {V T : Type} (C : @Collab V T).
Implicit Types (w : @World V T).

Lemma makedirs_fresh p (f f' : @FS V) : makedirs p f = inr f' -> p ∉ dirs f.
Proof. unfold makedirs. by case_bool_decide. Qed.

Lemma makedirs_inl p (f : @FS V) e :
  makedirs p f = inl e -> e = FileExistsError /\ p ∈ dirs f.
Proof. unfold makedirs. case_bool_decide; [|done]. by intros [= <-]. Qed.

Ltac disk_filt :=
  rewrite ?fmap_app, ?fmap_cons, ?fmap_nil; cbn [fst];
  rewrite ?List.filter_app; cbn [List.filter is_disk_event app].

(** X1. In a dry run construction does not touch the disk: the file
    system is as it was, no directory is made, no tensorboard writer is
    opened, nothing is dumped, and a construction that returns has no
    tensorboard writer. *)
Theorem init_dry_run_touches_no_disk opt w r w' a :
  args (experiment w) = Some a ->
  dry_run a = true ->
  Trainer_init C opt w = (r, w') ->
  fs w' = fs w
  /\ (exists evs, events w' = events w ++ evs
                  /\ List.filter is_disk_event evs = [])
  /\ (r = inr tt -> tb_writer (self w') = None).
Proof.
  destruct w as [[dev dl mo ar rd op me] [th teh sd imf ckf lp tb] pr ts f tr].
  destruct a as [ci ti li se nc dr].
  cbn. intros -> ->. exec.
  all: intros [= <- <-]; cbn [fs self tb_writer].
  all: split; [reflexivity|].
  all: split; [eexists; split; [new_events | by disk_filt] | by intros ?].
Qed.

(** X2. Outside a dry run, a construction that returns found none of its
    run folders on disk: the result folder, its image folder, the
    checkpoint folder and, with tensorboard, the tensorboard folder are
    all created by it and never reused. *)
Theorem init_folders_were_fresh opt w w' a desc :
  args (experiment w) = Some a ->
  run_description (experiment w) = Some desc ->
  dry_run a = false ->
  Trainer_init C opt w = (inr tt, w') ->
  let fstr := folder_str (get_date_str C) desc in
  (result_folder fstr ∉ dirs (fs w))
  /\ (imgs_folder fstr ∉ dirs (fs w))
  /\ (ckpt_folder fstr ∉ dirs (fs w))
  /\ (have_tensorboard C = true -> tboard_folder fstr ∉ dirs (fs w)).
Proof.
  destruct w as [[dev dl mo ar rd op me] [th teh sd imf ckf lp tb] pr ts f tr].
  destruct a as [ci ti li se nc dr].
  cbn. intros -> -> ->. exec_unfold.
  destruct (have_tensorboard C) eqn:Htb.
  all: cbn; repeat (exec_step; cbn); exec_finish.
  all: intros [= <-]; try discriminate.
  all: repeat match goal with
         | H : makedirs ?p _ = inr _ |- _ =>
             pose proof (makedirs_fresh _ _ _ H);
             apply makedirs_inr in H as (_ & ? & _)
         end.
  all: repeat split; try done.
  all: repeat intros ?;
    repeat match goal with
           | Hsub : dirs ?f1 ⊆ dirs ?f2, H : ?p ∈ dirs ?f1 |- _ =>
               lazymatch goal with
               | _ : p ∈ dirs f2 |- _ => fail
               | _ => pose proof (proj1 (elem_of_subseteq _ _) Hsub _ H)
               end
           end; done.
Qed.

(** X3. Outside a dry run, when the result folder of the run exists
    already, construction raises [FileExistsError] at its first
    [os.makedirs]: the disk is untouched and no setup hook has been
    called. *)
Theorem init_existing_result_folder opt w a desc :
  args (experiment w) = Some a ->
  run_description (experiment w) = Some desc ->
  py_mod (checkpoint_interval a) (test_log_interval a) = inr 0 ->
  dry_run a = false ->
  result_folder (folder_str (get_date_str C) desc) ∈ dirs (fs w) ->
  exists w',
    Trainer_init C opt w = (inl FileExistsError, w')
    /\ fs w' = fs w
    /\ events w' = events w ++ [EvSetRndSeed (seed a)].
Proof.
  destruct w as [[dev dl mo ar rd op me] [th teh sd imf ckf lp tb] pr ts f tr].
  destruct a as [ci ti li se nc dr].
  cbn. intros -> -> Hdiv -> Hin.
  match goal with
  | |- exists w', ?X = _ /\ _ => destruct X as [r w'] eqn:Hrun
  end.
  revert Hrun. exec_unfold. cbn. rewrite Hdiv. cbn.
  repeat (exec_step; cbn); exec_finish.
  all: try match goal with
           | H : makedirs (result_folder _) _ = inr _ |- _ =>
               by apply makedirs_fresh in H
           end.
  all: match goal with
       | H : makedirs (result_folder _) _ = inl _ |- _ =>
           apply makedirs_inl in H as [-> _]
       end.
  all: intros [= <- <-]. all: eexists. all: split; [reflexivity|].
  all: split; [reflexivity|]. all: unfold events; cbn [trace].
  all: by rewrite fmap_app.
Qed.

(** X4. A construction that returns has passed the divisibility
    assertion and the completeness check, and leaves a trainer with empty
    histories, the device picked from [no_cuda] and the availability of
    cuda, the folders and the log path of the run, and a tensorboard
    writer exactly when it is not a dry run and tensorboard is there. *)
Theorem init_postcondition opt w w' a desc :
  args (experiment w) = Some a ->
  run_description (experiment w) = Some desc ->
  Trainer_init C opt w = (inr tt, w') ->
  let fstr := folder_str (get_date_str C) desc in
  py_mod (checkpoint_interval a) (test_log_interval a) = inr 0
  /\ (None ∉ check_experiment_attributes (experiment w') opt)
  /\ self w'
     = mkTrainer History_new History_new
         (if negb (no_cuda a) && cuda_is_available C then cuda else cpu)
         (imgs_folder fstr) (ckpt_folder fstr) (log_file fstr)
         (if negb (dry_run a) && have_tensorboard C
          then Some (tboard_folder fstr) else None).
Proof.
  destruct w as [[dev dl mo ar rd op me] [th teh sd imf ckf lp tb] pr ts f tr].
  destruct a as [ci ti li se nc dr].
  cbn. intros -> ->. exec_unfold.
  destruct (have_tensorboard C) eqn:Htb, dr.
  all: cbn; repeat (exec_step; cbn); exec_finish.
  all: intros [= <-]; try discriminate.
  all: arith_facts; subst.
  all: cbn [experiment self].
  all: split; [done|].
  all: split; [|reflexivity].
  all: match goal with
       | H : negb (bool_decide _) = true |- _ =>
           by apply negb_true_iff, bool_decide_eq_false in H
       end.
Qed.

End ConstructionMore.

(** * Further properties of the evaluation pass *)

Section TestPassMore.

Context {V T : Type} (C : @Collab V T).
Implicit Types (w : @World V T).

Lemma write_file_result p c (f f' : @FS V) :
  write_file p c f = inr f' -> f' = mkFS (dirs f) (<[p := c]> (files f)).
Proof. unfold write_file. destruct (_ || _); [|done]. by intros [= <-]. Qed.

(** X5. An evaluation pass that returns adds one record to the test
    history, the summaries of the test procedure under the current step,
    and leaves the train history alone.  Outside a dry run the log file
    then holds the dictionary of that test history, written over what the
    additional-testing hook left; in a dry run the file system is what
    that hook left. *)
Theorem test_pass_persists epoch w w' m a :
  model (experiment w) = Some m ->
  args (experiment w) = Some a ->
  Trainer_test C epoch w = (inr tt, w') ->
  let s := global_step m in
  exists g f1,
    test_procedure C (mkModel s false) = inr g
    /\ additional_testing C (img_folder (self w)) (mkModel s false) (fs w)
       = inr f1
    /\ self w'
       = self_with_histories (self w) (train_history (self w))
           (History_add (test_history (self w)) g s)
    /\ fs w'
       = (if dry_run a then f1
          else mkFS (dirs f1)
                 (<[log_path (self w) :=
                      PHistory (History_get_dict
                                  (History_add (test_history (self w)) g s))]>
                    (files f1))).
Proof.
  destruct w as [[dev dl mo ar rd op me] [th teh sd imf ckf lp tb] pr ts f tr].
  destruct a as [ci ti li se nc dr].
  cbn. intros -> ->. destruct dr; exec.
  all: intros [= <-]; try discriminate.
  all: eexists _, _; split; [reflexivity|]; split; [reflexivity|].
  all: cbn [self fs]; split; [reflexivity|].
  all: first [ reflexivity
             | match goal with
               | H : write_file _ _ _ = inr _ |- _ =>
                   by apply write_file_result in H
               end ].
Qed.

(** X6. An evaluation pass that returns has made its calls in this
    order: [model.eval()], the test procedure, the additional-testing hook
    with the image folder, the test-log print with the step and the epoch,
    then (outside a dry run) the tensorboard scalars and the dump of the
    test history into the log file, and [model.train()] last. *)
Theorem test_pass_calls epoch w w' m a :
  model (experiment w) = Some m ->
  args (experiment w) = Some a ->
  Trainer_test C epoch w = (inr tt, w') ->
  exists g,
    test_procedure C (mkModel (global_step m) false) = inr g
    /\ events w'
       = events w ++ test_pass_events (self w) a (global_step m) epoch g.
Proof.
  destruct w as [[dev dl mo ar rd op me] [th teh sd imf ckf lp tb] pr ts f tr].
  destruct a as [ci ti li se nc dr].
  cbn. intros -> ->. unfold test_pass_events. destruct dr; exec.
  all: intros [= <-]; try discriminate.
  all: eexists; split; [reflexivity|].
  all: unfold events; cbn [trace self img_folder log_path tb_writer
                           test_history dry_run].
  all: rewrite ?fmap_app, ?fmap_fst_stamp, <- ?app_assoc; reflexivity.
Qed.

End TestPassMore.

(** * Further properties of the training loop *)

Section LoopMore.

Context {V T : Type} (C : @Collab V T).
Implicit Types (w : @World V T).

Lemma for_each_nothing {A B} (l : list A) (body : A -> B -> @M V T unit) w :
  for_each l (fun x => for_each [] (body x)) w = (inr tt, w).
Proof. induction l as [|x l IH]; cbn; [done | exact IH]. Qed.

Lemma range1_nil n : n <= 0 -> range1 n = [].
Proof.
  intros Hn. unfold range1. by replace (Z.to_nat n) with 0%nat by lia.
Qed.

Lemma range1_length n : Z.of_nat (length (range1 n)) = Z.max 0 n.
Proof. unfold range1. rewrite length_map, length_seq. lia. Qed.

(** X7. With no batch to process (no epoch, or an empty train loader),
    [run] returns after switching the model to train mode: no hook is
    called, the histories and the file system are untouched, and the
    step counter is as it was. *)
Theorem run_without_batches w m d :
  model (experiment w) = Some m ->
  dataloaders (experiment w) = Some d ->
  max_epochs (experiment w) <= 0 \/ train d = [] ->
  Trainer_run C w
  = (inr tt,
     mkWorld (exp_with_model (experiment w)
                             (Some (mkModel (global_step m) true)))
             (self w) None [] (fs w)
             (trace w ++ [(EvModelTrain, Some m)])).
Proof.
  destruct w as [[dev dl mo ar rd op me] [th teh sd imf ckf lp tb] pr ts f tr].
  destruct d as [loader].
  cbn. intros -> -> Hnone.
  unfold Trainer_run, model_train, get_model, get_experiment. cbn.
  destruct Hnone as [Hme | ->].
  - by rewrite (range1_nil me Hme).
  - apply for_each_nothing.
Qed.

(** One iteration that returns, from train mode: the step counter is one
    more and the model is in train mode. *)
Lemma run_batch_advances epoch xy w w' s :
  model (experiment w) = Some (mkModel s true) ->
  run_batch C epoch xy w = (inr tt, w') ->
  model (experiment w') = Some (mkModel (s + 1) true).
Proof.
  destruct w as [[dev dl mo ar rd op me] [th teh sd imf ckf lp tb] pr ts f tr].
  cbn. intros ->. exec_batch.
  all: intros [= <-]; try discriminate.
  all: cbn [experiment model exp_with_model].
  all: try reflexivity.
  all: match goal with
       | H : ?b = true <-> inr tt = inr tt |- _ =>
           by rewrite (proj2 H eq_refl)
       end.
Qed.

Lemma for_each_batches_advance epoch (l : list (T * T)) w w' s :
  model (experiment w) = Some (mkModel s true) ->
  for_each l (run_batch C epoch) w = (inr tt, w') ->
  model (experiment w') = Some (mkModel (s + Z.of_nat (length l)) true).
Proof.
  revert w s. induction l as [|xy l IH]; intros w s Hm; cbn [for_each].
  - intros [= <-]. by rewrite Hm, Z.add_0_r.
  - rewrite bind_unfold.
    destruct (run_batch C epoch xy w) as [[e|[]] w1] eqn:Hxy; [done|].
    intros Hrest.
    rewrite (IH w1 (s + 1) (run_batch_advances _ _ _ _ _ Hm Hxy) Hrest).
    do 2 f_equal. cbn [length]. lia.
Qed.

Lemma for_each_epochs_advance (epochs : list Z) (l : list (T * T)) w w' s :
  model (experiment w) = Some (mkModel s true) ->
  for_each epochs (fun epoch => for_each l (run_batch C epoch)) w
  = (inr tt, w') ->
  model (experiment w')
  = Some (mkModel (s + Z.of_nat (length epochs) * Z.of_nat (length l)) true).
Proof.
  revert w s. induction epochs as [|ep epochs IH]; intros w s Hm;
    cbn [for_each].
  - intros [= <-]. rewrite Hm. do 2 f_equal. cbn [length]. lia.
  - rewrite bind_unfold.
    destruct (for_each l (run_batch C ep) w) as [[e|[]] w1] eqn:Hep; [done|].
    intros Hrest.
    rewrite (IH w1 _ (for_each_batches_advance _ _ _ _ _ Hm Hep) Hrest).
    do 2 f_equal. cbn [length]. lia.
Qed.

(** X8. A [run] that returns has processed every batch of every epoch:
    the global step has grown by the number of epochs times the number of
    batches of the train loader, and the model is in train mode. *)
Theorem run_advances_step w w' m d :
  model (experiment w) = Some m ->
  dataloaders (experiment w) = Some d ->
  Trainer_run C w = (inr tt, w') ->
  model (experiment w')
  = Some (mkModel (global_step m
                   + Z.max 0 (max_epochs (experiment w))
                     * Z.of_nat (length (train d)))
                  true).
Proof.
  destruct w as [[dev dl mo ar rd op me] [th teh sd imf ckf lp tb] pr ts f tr].
  destruct d as [loader].
  cbn. intros -> ->.
  unfold Trainer_run, model_train, get_model, get_experiment. cbn.
  intros Hloop.
  eapply for_each_epochs_advance in Hloop; [|reflexivity].
  by rewrite Hloop, range1_length.
Qed.

Lemma test_kind_not_model_eval (ev : @Event V) :
  test_kind ev = true -> is_model_eval ev = false.
Proof. by destruct ev. Qed.

Lemma not_in_filter_nil (p : @Event V -> bool) ev evs :
  p ev = true -> List.filter p evs = [] -> ev ∉ evs.
Proof.
  intros Hp Hnil Hin.
  assert (Hf : List.In ev (List.filter p evs)).
  { apply List.filter_In. split; [by apply list_elem_of_In | done]. }
  by rewrite Hnil in Hf.
Qed.

End LoopMore.

Ltac eval_filt :=
  rewrite ?fmap_app, ?fmap_cons, ?fmap_nil; cbn [fst];
  rewrite ?List.filter_app; cbn [List.filter is_model_eval];
  repeat match goal with
         | |- context [List.filter is_model_eval (tb_events _ _ _ _)] =>
             rewrite (tb_events_filter is_model_eval) by done
         end;
  cbn [app].

Section EvaluationCadence.

Context {V T : Type} (C : @Collab V T).
Implicit Types (w : @World V T).

(** X9. An iteration of the loop runs the evaluation pass exactly when
    its step is a multiple of [test_log_interval], and then before
    anything else: step 0 is evaluated before any training. *)
Theorem evaluation_cadence epoch xy w r w' m a :
  model (experiment w) = Some m ->
  args (experiment w) = Some a ->
  run_batch C epoch xy w = (r, w') ->
  exists evs,
    events w' = events w ++ evs
    /\ (EvModelEval ∈ evs
        <-> py_mod (global_step m) (test_log_interval a) = inr 0)
    /\ (py_mod (global_step m) (test_log_interval a) = inr 0 ->
        exists rest, evs = EvModelEval :: rest).
Proof.
  destruct w as [[dev dl mo ar rd op me] [th teh sd imf ckf lp tb] pr ts f tr].
  cbn. intros -> ->. exec_batch.
  all: intros [= <- <-].
  all: eexists; split; [new_events|].
  all: arith_facts; subst.
  all: first
    [ (* the pass ran: it is the head of the new events *)
      rewrite fmap_cons; cbn [fst app];
      split; [split; [done | intros _; apply elem_of_cons; by left]
             | intros _; by eexists]
    | (* the pass was skipped *)
      split; [split; [intros Hin | intros ?; exfalso; congruence]
             | intros ?; exfalso; congruence];
      exfalso; revert Hin; apply (not_in_filter_nil is_model_eval); [done|];
      by eval_filt ].
Qed.

End EvaluationCadence.

(** * What the trace of [run] holds *)

Section Entries.

Context {V T : Type} (C : @Collab V T).
Implicit Types (w : @World V T).

Lemma tb_entries_ok a tb prefix (g : gmap string V) m :
  dry_run a = false ->
  Forall (run_entry_ok a)
         (map (fun ev => (ev, Some m))
              (tb_events tb prefix g (global_step m))).
Proof.
  intros Hdry. unfold tb_events. destruct tb; [|constructor].
  apply Forall_map, Forall_map, Forall_forall. intros kv _. by split.
Qed.

Lemma entries_kept_refl a w : entries_kept a w w.
Proof.
  intros Ha. split; [done|]. exists []. by rewrite app_nil_r.
Qed.

Lemma entries_kept_trans a w1 w2 w3 :
  entries_kept a w1 w2 -> entries_kept a w2 w3 -> entries_kept a w1 w3.
Proof.
  intros H12 H23 Ha.
  destruct (H12 Ha) as (Ha2 & tr1 & Htr1 & Hok1).
  destruct (H23 Ha2) as (Ha3 & tr2 & Htr2 & Hok2).
  split; [done|]. exists (tr1 ++ tr2).
  split; [by rewrite Htr2, Htr1, app_assoc | by apply Forall_app].
Qed.

(** The trace entries of one iteration. *)
Lemma run_batch_entries epoch xy w r w' a :
  run_batch C epoch xy w = (r, w') -> entries_kept a w w'.
Proof.
  destruct w as [[dev dl mo ar rd op me] [th teh sd imf ckf lp tb] pr ts f tr].
  destruct a as [ci ti li se nc dr].
  intros Hrun Ha. cbn in Ha. subst ar. revert Hrun.
  destruct mo as [[s b0]|]; destruct dr; exec.
  all: intros [= <- <-]; cbn [experiment args exp_with_model trace].
  all: split; [reflexivity|].
  all: eexists; split;
    [ rewrite <- ?app_assoc; first [reflexivity | symmetry; apply app_nil_r] |].
  all: arith_facts; subst.
  all: repeat first
    [ by apply Forall_nil
    | apply Forall_app; split
    | apply (tb_entries_ok _ _ _ _ (mkModel _ _)); reflexivity
    | apply Forall_cons; split;
      [ cbn; repeat split; first [ done | by eexists ] | ] ].
Qed.

(** The trace entries of a whole [run]. *)
Lemma Trainer_run_entries w r w' a :
  Trainer_run C w = (r, w') -> entries_kept a w w'.
Proof.
  destruct w as [[dev dl mo ar rd op me] [th teh sd imf ckf lp tb] pr ts f tr].
  unfold Trainer_run, model_train, get_model, get_experiment. cbn.
  destruct dl as [d|]; cbn; [|intros [= <- <-]; apply entries_kept_refl].
  destruct mo as [m|]; cbn;
    [|intros [= <- <-]; intros ?; cbn; split; [done|];
      exists []; by rewrite app_nil_r].
  intros Hloop.
  match type of Hloop with
  | for_each _ _ ?w1 = _ => apply (entries_kept_trans _ _ w1)
  end.
  - intros ?. cbn. split; [done|].
    exists [(EvModelTrain, Some m)]. split; [done|]. by repeat constructor.
  - eapply for_each_rel; [apply entries_kept_refl | apply entries_kept_trans
                         | | exact Hloop].
    intros epoch w1 r1 w1' Hepoch.
    eapply for_each_rel; [apply entries_kept_refl | apply entries_kept_trans
                         | | exact Hepoch].
    intros xy w2 r2 w2' Hbatch. by eapply run_batch_entries.
Qed.

(** X10. [run] takes no step of construction: whatever its outcome, it
    makes no directory, opens no tensorboard writer, seeds nothing, and
    calls neither a setup hook nor the completeness check. *)
Theorem run_takes_no_construction_step w r w' a :
  args (experiment w) = Some a ->
  Trainer_run C w = (r, w') ->
  exists tr,
    trace w' = trace w ++ tr
    /\ Forall (fun en => is_construction_event en.1 = false) tr.
Proof.
  intros Ha Hrun.
  destruct (Trainer_run_entries w r w' a Hrun Ha) as (_ & tr & Htr & Hok).
  exists tr. split; [done|].
  eapply Forall_impl; [exact Hok|].
  intros [ev [m|]] Hen; [|done]. by destruct ev.
Qed.

(** X11. In a dry run [run] itself persists nothing, whatever its
    outcome: it dumps no history and sends no scalar to tensorboard, even
    when the trainer holds a tensorboard writer. *)
Theorem run_dry_persists_nothing w r w' a :
  args (experiment w) = Some a ->
  dry_run a = true ->
  Trainer_run C w = (r, w') ->
  exists tr,
    trace w' = trace w ++ tr
    /\ Forall (fun en => is_persist_event en.1 = false) tr.
Proof.
  intros Ha Hdry Hrun.
  destruct (Trainer_run_entries w r w' a Hrun Ha) as (_ & tr & Htr & Hok).
  exists tr. split; [done|].
  eapply Forall_impl; [exact Hok|].
  intros [ev [m|]] Hen; [|done].
  destruct ev; try done; cbn in Hen; destruct Hen as [Hen _]; congruence.
Qed.

(** X12. In every execution of [run] the print hooks get the steps of
    their cadences: the train log is printed with the step after the
    batch, [s + 1], a multiple of [log_interval]; the test log with the
    current step [s], a multiple of [test_log_interval]. *)
Theorem run_log_cadence w r w' a :
  args (experiment w) = Some a ->
  Trainer_run C w = (r, w') ->
  exists tr,
    trace w' = trace w ++ tr
    /\ (forall s' epoch mo, (EvPrintTrainLog s' epoch, mo) ∈ tr ->
        py_mod s' (log_interval a) = inr 0
        /\ exists m, mo = Some m /\ s' = global_step m + 1)
    /\ (forall s' epoch mo, (EvPrintTestLog s' epoch, mo) ∈ tr ->
        py_mod s' (test_log_interval a) = inr 0
        /\ exists m, mo = Some m /\ s' = global_step m).
Proof.
  intros Ha Hrun.
  destruct (Trainer_run_entries w r w' a Hrun Ha) as (_ & tr & Htr & Hok).
  exists tr. split; [done|].
  rewrite Forall_forall in Hok.
  split; intros s' epoch mo Hin; specialize (Hok _ Hin);
    destruct mo as [m|]; try done; cbn in Hok.
  - destruct Hok as [-> Hcad]. split; [done | by eexists].
  - destruct Hok as [-> Hcad]. split; [done | by eexists].
Qed.

End Entries.

(** * A run without an optimizer *)

Section NoOptimizer.

Context {V T : Type} (C : @Collab V T).
Implicit Types (w : @World V T).

Lemma test_kind_not_tqdm (ev : @Event V) :
  test_kind ev = true -> is_tqdm ev = false.
Proof. by destruct ev. Qed.

(** An iteration without an optimizer raises before any hook of the
    optimize-step sequence. *)
Lemma run_batch_no_optimizer epoch xy w m a :
  model (experiment w) = Some m ->
  args (experiment w) = Some a ->
  optimizer (experiment w) = None ->
  exists exc w' evs,
    run_batch C epoch xy w = (inl exc, w')
    /\ events w' = events w ++ evs
    /\ List.filter is_step_hook evs = []
    /\ global_step <$> model (experiment w') = Some (global_step m)
    /\ (List.filter is_tqdm evs <> [] -> exc = AttributeError)
    /\ (forall z, py_mod (global_step m) (test_log_interval a) = inr z ->
        z <> 0 -> exc = AttributeError /\ evs = []).
Proof.
  destruct w as [[dev dl mo ar rd op me] [th teh sd imf ckf lp tb] pr ts f tr].
  cbn. intros -> -> ->.
  match goal with
  | |- exists exc w' evs, ?X = _ /\ _ => destruct X as [r w'] eqn:Hrun
  end.
  revert Hrun. exec_batch.
  all: intros [= <- <-].
  all: eexists _, _, _; split; [reflexivity|]; split; [new_events|].
  all: split; [by filt|].
  all: split; [reflexivity|].
  all: arith_facts; subst.
  all: rewrite ?fmap_app, ?fmap_cons, ?fmap_nil; cbn [fst];
       rewrite ?List.filter_app; cbn [List.filter is_tqdm];
       repeat match goal with
              | H : Forall (in_eval _) ?body
                |- context [List.filter is_tqdm ?body.*1] =>
                  rewrite (in_eval_events is_tqdm _ body test_kind_not_tqdm H)
              end;
       cbn [app].
  all: split; [first [done | by intros _] | intros ? Hz Hne].
  all: first [ done | exfalso; congruence ].
Qed.

(** X13. Without an optimizer on the experiment (a construction with
    [create_optimizer] false passes its check without one), [run] raises
    during its first batch before any hook of the optimize-step sequence:
    the step counter is not incremented.  The exception is the
    [AttributeError] of [e.optimizer.zero_grad()] once the progress bar
    was started, and at once when the first step is off the test
    cadence. *)
Theorem run_without_optimizer w m a d xy rest :
  model (experiment w) = Some m ->
  args (experiment w) = Some a ->
  dataloaders (experiment w) = Some d ->
  optimizer (experiment w) = None ->
  train d = xy :: rest ->
  1 <= max_epochs (experiment w) ->
  exists exc w' evs,
    Trainer_run C w = (inl exc, w')
    /\ events w' = events w ++ EvModelTrain :: evs
    /\ List.filter is_step_hook evs = []
    /\ global_step <$> model (experiment w') = Some (global_step m)
    /\ (List.filter is_tqdm evs <> [] -> exc = AttributeError)
    /\ (forall z, py_mod (global_step m) (test_log_interval a) = inr z ->
        z <> 0 -> exc = AttributeError /\ evs = []).
Proof.
  destruct w as [[dev dl mo ar rd op me] [th teh sd imf ckf lp tb] pr ts f tr].
  destruct d as [loader].
  cbn. intros -> -> -> -> -> Hme.
  destruct (range1_cons me Hme) as [epochs Hepochs].
  unfold Trainer_run, model_train, get_model, get_experiment.
  cbn. rewrite Hepochs. cbn [for_each].
  rewrite !bind_assoc, bind_unfold.
  match goal with
  | |- context [run_batch C 1 xy ?w1] =>
      destruct (run_batch_no_optimizer 1 xy w1 (mkModel (global_step m) true) a)
        as (exc & w' & evs & Hrun & Hev & Hstep & Hmodel & Htq & Hoff);
        [reflexivity | reflexivity | reflexivity |];
      rewrite Hrun
  end.
  exists exc, w', evs. split; [reflexivity|].
  split.
  { rewrite Hev. unfold events. cbn [trace]. rewrite fmap_app, <- app_assoc.
    reflexivity. }
  done.
Qed.

End NoOptimizer.

(** * Histories and the progress bar *)

Section StateMore.

Context {V T : Type} (C : @Collab V T).
Implicit Types (w : @World V T).

Lemma histories_extend_refl a w : histories_extend a w w.
Proof.
  intros Ha. split; [done|].
  split; exists []; rewrite app_nil_r; [|split]; done.
Qed.

Lemma histories_extend_trans a w1 w2 w3 :
  histories_extend a w1 w2 -> histories_extend a w2 w3 ->
  histories_extend a w1 w3.
Proof.
  intros H12 H23 Ha.
  destruct (H12 Ha) as (Ha2 & (h1 & Hh1) & (t1 & Ht1 & Hk1)).
  destruct (H23 Ha2) as (Ha3 & (h2 & Hh2) & (t2 & Ht2 & Hk2)).
  split; [done|]. split.
  - exists (h1 ++ h2). by rewrite Hh2, Hh1, app_assoc.
  - exists (t1 ++ t2). split; [by rewrite Ht2, Ht1, app_assoc|].
    by apply Forall_app.
Qed.

Lemma run_batch_histories_extend epoch xy w r w' a :
  run_batch C epoch xy w = (r, w') -> histories_extend a w w'.
Proof.
  destruct w as [[dev dl mo ar rd op me] [th teh sd imf ckf lp tb] pr ts f tr].
  intros Hrun Ha. cbn in Ha. subst ar. revert Hrun.
  exec.
  all: intros [= <- <-]; cbn [experiment self args train_history test_history
                              self_with_histories exp_with_model].
  all: split; [reflexivity|].
  all: arith_facts; subst.
  all: unfold History_add.
  all: split;
    [ first [ by eexists | by (exists []; rewrite app_nil_r) ]
    | first [ by (eexists [_]; split; [reflexivity | by repeat constructor])
            | by (exists []; rewrite app_nil_r) ] ].
Qed.

(** X14. [run] only appends to its histories, whatever its outcome: the
    records that were in the train and test histories stay, in order, in
    front of the new ones; and every record it adds to the test history
    is keyed by a multiple of [test_log_interval]. *)
Theorem run_histories_append_only w r w' a :
  args (experiment w) = Some a ->
  Trainer_run C w = (r, w') ->
  (exists h, train_history (self w') = train_history (self w) ++ h)
  /\ (exists h, test_history (self w') = test_history (self w) ++ h
                /\ Forall (fun rec =>
                             py_mod rec.1 (test_log_interval a) = inr 0) h).
Proof.
  intros Ha Hrun.
  assert (Hext : histories_extend a w w'); [|by destruct (Hext Ha)].
  clear Ha. revert Hrun.
  destruct w as [[dev dl mo ar rd op me] [th teh sd imf ckf lp tb] pr ts f tr].
  unfold Trainer_run, model_train, get_model, get_experiment. cbn.
  destruct dl as [d|]; cbn; [|intros [= <- <-]; apply histories_extend_refl].
  destruct mo as [m|]; cbn;
    [|intros [= <- <-]; intros ?; cbn; split; [done|];
      split; exists []; rewrite app_nil_r; [|split]; done].
  intros Hloop.
  match type of Hloop with
  | for_each _ _ ?w1 = _ => apply (histories_extend_trans _ _ w1)
  end.
  - intros ?. cbn. split; [done|].
    split; exists []; rewrite app_nil_r; [|split]; done.
  - eapply for_each_rel; [apply histories_extend_refl
                         | apply histories_extend_trans | | exact Hloop].
    intros epoch w1 r1 w1' Hepoch.
    eapply for_each_rel; [apply histories_extend_refl
                         | apply histories_extend_trans | | exact Hepoch].
    intros xy w2 r2 w2' Hbatch. by eapply run_batch_histories_extend.
Qed.

(** X15. After an iteration that returns there is a progress bar.  It
    was started afresh, with [test_log_interval] as its total, when the
    iteration evaluated, and it is the bar of the iteration before
    otherwise; it has been updated once; and it is closed whenever the
    next step is a multiple of [test_log_interval]. *)
Theorem progress_bar_after_batch epoch xy w w' m a :
  model (experiment w) = Some m ->
  args (experiment w) = Some a ->
  run_batch C epoch xy w = (inr tt, w') ->
  exists p,
    progress w' = Some p
    /\ (py_mod (global_step m + 1) (test_log_interval a) = inr 0 ->
        closed p = true)
    /\ (py_mod (global_step m) (test_log_interval a) = inr 0 ->
        total p = test_log_interval a /\ count p = 1)
    /\ (py_mod (global_step m) (test_log_interval a) <> inr 0 ->
        exists p0, progress w = Some p0
                   /\ total p = total p0 /\ count p = count p0 + 1).
Proof.
  destruct w as [[dev dl mo ar rd op me] [th teh sd imf ckf lp tb] pr ts f tr].
  cbn. intros -> ->. exec_batch.
  all: intros [= <-]; try discriminate.
  all: arith_facts; subst.
  all: cbn [progress]; eexists; split; [reflexivity|]; cbn [closed total count].
  all: split; [first [done | intros; exfalso; congruence]|].
  all: split; [first [done | intros; exfalso; congruence]|].
  all: first [ by intros Hoff | intros _; by eexists ].
Qed.

End StateMore.

(** * Edge cases of the arguments *)

Section Edges.

Context {V T : Type} (C : @Collab V T).
Implicit Types (w : @World V T).

(** X16. In a dry run, with additional-testing and checkpoint hooks that
    write nothing, [run] leaves the file system exactly as it was,
    whatever its outcome: the only writes of a dry run are those of these
    two hooks. *)
Theorem run_dry_leaves_disk w r w' a :
  args (experiment w) = Some a ->
  dry_run a = true ->
  hooks_write_nothing C ->
  Trainer_run C w = (r, w') ->
  fs w' = fs w.
Proof.
  intros Ha Hdry Hhooks Hrun.
  by destruct (Trainer_run_dry C w r w' a Hdry Hhooks Hrun Ha).
Qed.

Lemma test_kind_not_progress_update (ev : @Event V) :
  test_kind ev = true -> is_progress_update ev = false.
Proof. by destruct ev. Qed.

(** X17. [log_interval] is not validated by construction: with a zero
    [log_interval] every iteration raises.  Once the progress bar was
    updated the exception is the [ZeroDivisionError] of
    [(step + 1) % log_interval]; the forward and backward passes may have
    run, but the optimizer step is not taken and the step counter is not
    incremented. *)
Theorem zero_log_interval epoch xy w m a :
  model (experiment w) = Some m ->
  args (experiment w) = Some a ->
  log_interval a = 0 ->
  exists exc w' evs,
    run_batch C epoch xy w = (inl exc, w')
    /\ events w' = events w ++ evs
    /\ List.filter is_step_hook evs
       `prefix_of` [EvZeroGrad; EvForwardPass; EvBackward; EvSummarizersAdd]
    /\ global_step <$> model (experiment w') = Some (global_step m)
    /\ (List.filter is_progress_update evs <> [] ->
        exc = ZeroDivisionError).
Proof.
  destruct w as [[dev dl mo ar rd op me] [th teh sd imf ckf lp tb] pr ts f tr].
  destruct a as [ci ti li se nc dr].
  cbn. intros -> -> ->.
  match goal with
  | |- exists exc w' evs, ?X = _ /\ _ => destruct X as [r w'] eqn:Hrun
  end.
  revert Hrun. exec_batch.
  all: try match goal with
           | H : py_mod _ 0 = inr _ |- _ => by vm_compute in H
           end.
  all: intros [= <- <-].
  all: eexists _, _, _; split; [reflexivity|]; split; [new_events|].
  all: split; [filt; by eexists|].
  all: split; [reflexivity|].
  all: rewrite ?fmap_app, ?fmap_cons, ?fmap_nil; cbn [fst];
       rewrite ?List.filter_app; cbn [List.filter is_progress_update];
       repeat match goal with
              | H : Forall (in_eval _) ?body
                |- context [List.filter is_progress_update ?body.*1] =>
                  rewrite (in_eval_events is_progress_update _ body
                             test_kind_not_progress_update H)
              end;
       cbn [app].
  all: first [ done | intros _ ].
  all: match goal with
       | H : py_mod _ 0 = inl _ |- _ => vm_compute in H; congruence
       | H : py_mod _ ?t = inr _, H' : py_mod _ ?t = inl _ |- _ =>
           unfold py_mod in H, H'; destruct (t =? 0); congruence
       end.
Qed.

(** X18. Without a run description construction raises [TypeError] when
    it builds the name of the run folder: after the divisibility assertion
    and the seeding, before any directory is made or any setup hook is
    called; the disk is untouched. *)
Theorem init_without_run_description opt w a :
  args (experiment w) = Some a ->
  run_description (experiment w) = None ->
  py_mod (checkpoint_interval a) (test_log_interval a) = inr 0 ->
  exists w',
    Trainer_init C opt w = (inl TypeError, w')
    /\ fs w' = fs w
    /\ events w' = events w ++ [EvSetRndSeed (seed a)].
Proof.
  destruct w as [[dev dl mo ar rd op me] [th teh sd imf ckf lp tb] pr ts f tr].
  cbn. intros -> -> Hdiv.
  exec_unfold. cbn. rewrite Hdiv. cbn.
  eexists. split; [reflexivity|]. split; [reflexivity|].
  unfold events. cbn [trace]. by rewrite fmap_app.
Qed.

End Edges.

(** * The driver on concrete inputs *)

Section Snapshots.

Context {V : Type}.

Lemma snapshots_grow_steps (l : list (gmap string (list (Z * V)))) k i s1 s2 :
  snapshots_grow l ->
  steps_at k l !! i = Some s1 ->
  steps_at k l !! S i = Some s2 ->
  s1 ⊆ s2.
Proof.
  unfold steps_at. intros Hgrow H1 H2.
  apply list_lookup_fmap_Some_1 in H1 as (d1 & -> & Hd1).
  apply list_lookup_fmap_Some_1 in H2 as (d2 & -> & Hd2).
  by eapply Hgrow.
Qed.

End Snapshots.

Module Runs.

Import Plain.

Ltac in_list := apply list_elem_of_In; vm_compute;
                repeat (first [left; reflexivity | right]).

(** C1, on the code.  With a test every 2 steps and a train log at every
    step, [log.pkl] is written in turn with the test history and with the
    train history: the snapshot written by the test flush of step 2 holds
    the steps 0 and 2, after a snapshot that held the steps 0 and 1. *)
Theorem log_file_alternates :
  alternating_run.1 = inr tt
  /\ steps_at "loss" (persisted_to "results/d_r/log.pkl" (events alternating_run.2))
     = [[0]; [0]; [0; 1]; [0; 2]; [0; 1; 2]; [0; 1; 2; 3]]
  /\ history_steps (train_history (self alternating_run.2)) = [0; 1; 2; 3]
  /\ history_steps (test_history (self alternating_run.2)) = [0; 2]
  /\ ~ snapshots_grow (persisted_to "results/d_r/log.pkl" (events alternating_run.2)).
Proof.
  assert (Hsteps : steps_at "loss" (persisted_to "results/d_r/log.pkl"
                                                 (events alternating_run.2))
                   = [[0]; [0]; [0; 1]; [0; 2]; [0; 1; 2]; [0; 1; 2; 3]])
    by (vm_compute; reflexivity).
  split; [vm_compute; reflexivity|].
  split; [exact Hsteps|].
  split; [vm_compute; reflexivity|].
  split; [vm_compute; reflexivity|].
  intros Hgrow.
  assert (Hsub : [0; 1] ⊆ [0; 2]).
  { apply (snapshots_grow_steps _ "loss" 2%nat _ _ Hgrow); by rewrite Hsteps. }
  assert (Hin : 1 ∈ [0; 2]).
  { apply Hsub. apply elem_of_cons. right. apply elem_of_cons. by left. }
  rewrite !elem_of_cons, elem_of_nil in Hin. lia.
Qed.

(** C2, on the code.  With a train log every 2 steps, after 2 batches from
    step 0 the train history has one record, and its key is 1, the step
    before the batch, where the print hook was given 2. *)
Theorem train_history_key_off_by_one :
  two_batches_run.1 = inr tt
  /\ global_step <$> model (experiment two_batches_run.2) = Some 2
  /\ history_steps (train_history (self two_batches_run.2)) = [1]
  /\ EvPrintTrainLog 2 1 ∈ events two_batches_run.2
  /\ ~ (2 | 1).
Proof.
  split; [vm_compute; reflexivity|].
  split; [vm_compute; reflexivity|].
  split; [vm_compute; reflexivity|].
  split; [in_list|].
  intros [k Hk]. lia.
Qed.

(** C3, on the code.  In a dry run the checkpoint hook is still called
    with the checkpoint folder, and a model that saves its state there
    leaves a folder and a file. *)
Theorem dry_run_checkpoint_written :
  dry_saving_run.1 = inr tt
  /\ EvCheckpoint "checkpoints/d_r" ∈ events dry_saving_run.2
  /\ "checkpoints/d_r" ∈ dirs (fs dry_saving_run.2)
  /\ files (fs dry_saving_run.2) !! "checkpoints/d_r/model.pt" = Some (PBlob "state_dict").
Proof.
  split; [vm_compute; reflexivity|].
  split; [in_list|].
  split; [compute_done | vm_compute; reflexivity].
Qed.

(** C4 fails as worded: the completeness check is the last call of a
    construction, after the directories were made. *)
Lemma init_order_not_as_specified :
  ~ spec_init_order (events construction.2).
Proof.
  intros [Hcheck _].
  specialize (Hcheck 9%nat 1%nat (EvCheckExperiment true)
                     (EvMakedirs "results/d_r")).
  assert (9 < 1)%nat; [|lia].
  apply Hcheck; vm_compute; reflexivity.
Qed.

(** C7 fails as worded: when the test procedure raises, the model is left
    in eval mode. *)
Lemma test_pass_raises_in_eval_mode :
  raising_pass.1 = inl (HookError "test_procedure")
  /\ ~ (training <$> model (experiment raising_pass.2) = Some true).
Proof.
  split; [vm_compute; reflexivity|].
  vm_compute. discriminate.
Qed.

(** ** The theorems at concrete inputs *)

Lemma init_order_witness :
  args (experiment fresh_world) = Some (intervals 1 1 1 false)
  /\ run_description (experiment fresh_world) = Some "r"
  /\ Trainer_init (collab false) true fresh_world
     = (construction.1, construction.2)
  /\ (py_mod 1 1 <> inr 0 ->
      construction.2 = fresh_world /\ exists exc, construction.1 = inl exc)
  /\ (py_mod 1 1 = inr 0 ->
      exists evs,
        events construction.2 = events fresh_world ++ evs
        /\ evs `prefix_of` init_events (collab false) (intervals 1 1 1 false) "r" true
        /\ (construction.1 = inr tt ->
            evs = init_events (collab false) (intervals 1 1 1 false) "r" true)).
Proof.
  unfold construction.
  split; [vm_compute; reflexivity|]. split; [vm_compute; reflexivity|].
  split; [apply surjective_pairing|].
  eapply (init_order (collab false) true fresh_world _ _ (intervals 1 1 1 false) "r");
    [vm_compute; reflexivity | vm_compute; reflexivity
    | apply surjective_pairing].
Defined.

Lemma init_rejects_indivisible_witness :
  args (experiment indivisible_world) = Some (intervals 5 2 1 false)
  /\ ~ (exists k, 5 = k * 2)
  /\ exists exc,
       Trainer_init (collab false) true indivisible_world
       = (inl exc, indivisible_world).
Proof.
  assert (Hno : ~ (exists k, 5 = k * 2)) by (intros [k Hk]; lia).
  split; [vm_compute; reflexivity|]. split; [exact Hno|].
  apply (init_rejects_indivisible (collab false) true indivisible_world
                                  (intervals 5 2 1 false));
    [vm_compute; reflexivity | exact Hno].
Defined.

Lemma checkpoint_cadence_witness :
  args (experiment dry_world) = Some (intervals 2 1 1 true)
  /\ py_mod 2 1 = inr 0
  /\ Trainer_run (collab false) dry_world = (cadence_run.1, cadence_run.2)
  /\ exists tr,
       trace cadence_run.2 = trace dry_world ++ tr
       /\ (forall f mo, (EvCheckpoint f, mo) ∈ tr ->
           f = checkpoint_folder (self dry_world)
           /\ exists m, mo = Some m
                        /\ py_mod (global_step m) 2 = inr 0
                        /\ 0 < global_step m)
       /\ (forall m, (EvZeroGrad, Some m) ∈ tr ->
           py_mod (global_step m) 2 = inr 0 ->
           0 < global_step m ->
           exists m', (EvCheckpoint (checkpoint_folder (self dry_world)),
                       Some m') ∈ tr
                      /\ global_step m' = global_step m).
Proof.
  unfold cadence_run.
  split; [vm_compute; reflexivity|]. split; [vm_compute; reflexivity|].
  split; [apply surjective_pairing|].
  eapply (checkpoint_cadence (collab false) dry_world _ _
                             (intervals 2 1 1 true));
    [vm_compute; reflexivity | vm_compute; reflexivity
    | apply surjective_pairing].
Defined.

(** The run of [cadence_run] calls the checkpoint hook at step 2 only. *)
Example cadence_run_checkpoints :
  cadence_run.1 = inr tt
  /\ List.filter (on_event is_checkpoint) (trace cadence_run.2)
     = [(EvCheckpoint "checkpoints/d_r", Some (mkModel 2 true))]
  /\ (List.filter (on_event is_zero_grad) (trace cadence_run.2)).*2
     = [Some (mkModel 2 true); Some (mkModel 3 true)].
Proof.
  split; [vm_compute; reflexivity|]. split; vm_compute; reflexivity.
Qed.

Lemma test_pass_mode_witness :
  model (experiment dry_world) = Some (mkModel 2 true)
  /\ Trainer_test (collab false) 1 dry_world
     = (returning_pass.1, returning_pass.2)
  /\ exists body,
       trace returning_pass.2
       = trace dry_world ++ (EvModelEval, Some (mkModel 2 true)) :: body
       /\ Forall (fun en => training <$> en.2 = Some false) body
       /\ (returning_pass.1 = inr tt ->
           training <$> model (experiment returning_pass.2) = Some true)
       /\ (forall exc, returning_pass.1 = inl exc ->
           training <$> model (experiment returning_pass.2) = Some false).
Proof.
  unfold returning_pass.
  split; [vm_compute; reflexivity|]. split; [apply surjective_pairing|].
  eapply (test_pass_mode (collab false) 1 dry_world _ _ (mkModel 2 true));
    [vm_compute; reflexivity | apply surjective_pairing].
Defined.

Lemma run_batch_step_sequence_witness :
  run_batch (collab false) 1 (0, 0) dry_world = (iteration.1, iteration.2)
  /\ exists evs,
       events iteration.2 = events dry_world ++ evs
       /\ List.filter is_step_hook evs `prefix_of` step_hooks
       /\ (iteration.1 = inr tt ->
           List.filter is_step_hook evs = step_hooks
           /\ exists m m', model (experiment dry_world) = Some m
                           /\ model (experiment iteration.2) = Some m'
                           /\ global_step m' = global_step m + 1)
       /\ (forall exc, iteration.1 = inl exc ->
           global_step <$> model (experiment iteration.2)
           = global_step <$> model (experiment dry_world)).
Proof.
  unfold iteration.
  split; [apply surjective_pairing|].
  eapply (run_batch_step_sequence (collab false) 1 (0, 0) dry_world _ _).
  apply surjective_pairing.
Defined.

Lemma run_fails_off_cadence_witness :
  model (experiment resumed_world) = Some (mkModel 1 true)
  /\ args (experiment resumed_world) = Some (intervals 2 2 1 true)
  /\ dataloaders (experiment resumed_world)
     = Some (mkDataloaders [(0, 0); (1, 1)])
  /\ 1 <= max_epochs (experiment resumed_world)
  /\ py_mod 1 2 <> inr 0
  /\ exists exc w' evs,
       Trainer_run (collab false) resumed_world = (inl exc, w')
       /\ events w' = events resumed_world ++ EvModelTrain :: evs
       /\ global_step <$> model (experiment w') = Some 1
       /\ (EvSummarizersAdd ∈ evs -> exc = AttributeError)
       /\ (EvProgressUpdate ∉ evs)
       /\ ~ (EvTqdm 2 ∈ evs).
Proof.
  assert (Hoff : py_mod 1 2 <> inr 0) by (vm_compute; discriminate).
  split; [vm_compute; reflexivity|]. split; [vm_compute; reflexivity|]. split; [vm_compute; reflexivity|].
  split; [vm_compute; discriminate|]. split; [exact Hoff|].
  apply (run_fails_off_cadence (collab false) resumed_world (mkModel 1 true)
           (intervals 2 2 1 true) (mkDataloaders [(0, 0); (1, 1)]) (0, 0)
           [(1, 1)]);
    [vm_compute; reflexivity | vm_compute; reflexivity
    | vm_compute; reflexivity | vm_compute; reflexivity
    | vm_compute; discriminate | exact Hoff].
Defined.

Lemma check_after_side_effects_witness :
  args (experiment fresh_world) = Some (intervals 1 1 1 false)
  /\ run_description (experiment fresh_world) = Some "r"
  /\ Trainer_init collab_no_optimizer true fresh_world
     = (incomplete_construction.1, incomplete_construction.2)
  /\ exists evs,
       events incomplete_construction.2 = events fresh_world ++ evs
       /\ (EvCheckExperiment true ∈ evs ->
           evs = init_events collab_no_optimizer (intervals 1 1 1 false) "r" true
           /\ (None ∈ check_experiment_attributes
                        (experiment incomplete_construction.2) true ->
               incomplete_construction.1 = inl AssertionError
               /\ (dry_run (intervals 1 1 1 false) = false ->
                   let fstr := folder_str (get_date_str collab_no_optimizer) "r" in
                   result_folder fstr ∈ dirs (fs incomplete_construction.2)
                   /\ imgs_folder fstr ∈ dirs (fs incomplete_construction.2)
                   /\ ckpt_folder fstr ∈ dirs (fs incomplete_construction.2)
                   /\ (have_tensorboard collab_no_optimizer = true ->
                       tboard_folder fstr ∈ dirs (fs incomplete_construction.2))
                   /\ files (fs incomplete_construction.2) !! config_file fstr
                      = Some (PArgs (intervals 1 1 1 false))))).
Proof.
  unfold incomplete_construction.
  split; [vm_compute; reflexivity|]. split; [vm_compute; reflexivity|].
  split; [apply surjective_pairing|].
  eapply (check_after_side_effects collab_no_optimizer true fresh_world _ _
           (intervals 1 1 1 false) "r");
    [vm_compute; reflexivity | vm_compute; reflexivity
    | apply surjective_pairing].
Defined.

(** The incomplete construction does fail at the check, with the
    directories and the configuration on disk. *)
Example incomplete_construction_leaves_files :
  incomplete_construction.1 = inl AssertionError
  /\ EvCheckExperiment true ∈ events incomplete_construction.2
  /\ "results/d_r" ∈ dirs (fs incomplete_construction.2)
  /\ "checkpoints/d_r" ∈ dirs (fs incomplete_construction.2)
  /\ files (fs incomplete_construction.2) !! "checkpoints/d_r/config.pkl"
     = Some (PArgs (intervals 1 1 1 false)).
Proof.
  split; [vm_compute; reflexivity|].
  split; [in_list|].
  split; [compute_done|]. split; [compute_done | vm_compute; reflexivity].
Qed.

End Runs.

(** * The further theorems at concrete inputs *)

Module Checks.

Import Plain Inputs.

Lemma init_dry_run_touches_no_disk_witness :
  args (experiment dry_fresh_world) = Some (intervals 1 1 1 true)
  /\ dry_run (intervals 1 1 1 true) = true
  /\ Trainer_init (collab true) true dry_fresh_world
     = (dry_construction.1, dry_construction.2)
  /\ (fs dry_construction.2 = fs dry_fresh_world
      /\ (exists evs,
            events dry_construction.2 = events dry_fresh_world ++ evs
            /\ List.filter is_disk_event evs = [])
      /\ (dry_construction.1 = inr tt ->
          tb_writer (self dry_construction.2) = None)).
Proof.
  unfold dry_construction.
  split; [vm_compute; reflexivity|]. split; [reflexivity|].
  split; [apply surjective_pairing|].
  eapply (init_dry_run_touches_no_disk (collab true) true dry_fresh_world _ _
            (intervals 1 1 1 true));
    [vm_compute; reflexivity | reflexivity | apply surjective_pairing].
Defined.

Lemma init_folders_were_fresh_witness :
  args (experiment fresh_world) = Some (intervals 1 1 1 false)
  /\ run_description (experiment fresh_world) = Some "r"
  /\ dry_run (intervals 1 1 1 false) = false
  /\ Trainer_init (collab true) true fresh_world = (inr tt, tb_construction.2)
  /\ ((result_folder (folder_str (get_date_str (collab true)) "r")
         ∉ dirs (fs fresh_world))
      /\ (imgs_folder (folder_str (get_date_str (collab true)) "r")
            ∉ dirs (fs fresh_world))
      /\ (ckpt_folder (folder_str (get_date_str (collab true)) "r")
            ∉ dirs (fs fresh_world))
      /\ (have_tensorboard (collab true) = true ->
          tboard_folder (folder_str (get_date_str (collab true)) "r")
            ∉ dirs (fs fresh_world))).
Proof.
  assert (Hret : Trainer_init (collab true) true fresh_world
                 = (inr tt, tb_construction.2)) by (vm_compute; reflexivity).
  split; [vm_compute; reflexivity|]. split; [vm_compute; reflexivity|].
  split; [reflexivity|]. split; [exact Hret|].
  apply (init_folders_were_fresh (collab true) true fresh_world
           tb_construction.2 (intervals 1 1 1 false) "r");
    [vm_compute; reflexivity | vm_compute; reflexivity | reflexivity
    | exact Hret].
Defined.

Lemma init_existing_result_folder_witness :
  args (experiment occupied_world) = Some (intervals 1 1 1 false)
  /\ run_description (experiment occupied_world) = Some "r"
  /\ py_mod 1 1 = inr 0
  /\ dry_run (intervals 1 1 1 false) = false
  /\ result_folder (folder_str (get_date_str (collab true)) "r")
       ∈ dirs (fs occupied_world)
  /\ exists w',
       Trainer_init (collab true) true occupied_world
       = (inl FileExistsError, w')
       /\ fs w' = fs occupied_world
       /\ events w' = events occupied_world ++ [EvSetRndSeed 0].
Proof.
  assert (Hin : result_folder (folder_str (get_date_str (collab true)) "r")
                  ∈ dirs (fs occupied_world)) by compute_done.
  split; [reflexivity|]. split; [reflexivity|].
  split; [vm_compute; reflexivity|]. split; [reflexivity|].
  split; [exact Hin|].
  apply (init_existing_result_folder (collab true) true occupied_world
           (intervals 1 1 1 false) "r");
    [reflexivity | reflexivity | vm_compute; reflexivity | reflexivity
    | exact Hin].
Defined.

Lemma init_postcondition_witness :
  args (experiment fresh_world) = Some (intervals 1 1 1 false)
  /\ run_description (experiment fresh_world) = Some "r"
  /\ Trainer_init (collab true) true fresh_world = (inr tt, tb_construction.2)
  /\ (py_mod 1 1 = inr 0
      /\ (None ∉ check_experiment_attributes (experiment tb_construction.2)
                   true)
      /\ self tb_construction.2
         = mkTrainer History_new History_new
             (if negb (no_cuda (intervals 1 1 1 false))
                 && cuda_is_available (collab true) then cuda else cpu)
             (imgs_folder (folder_str (get_date_str (collab true)) "r"))
             (ckpt_folder (folder_str (get_date_str (collab true)) "r"))
             (log_file (folder_str (get_date_str (collab true)) "r"))
             (if negb (dry_run (intervals 1 1 1 false))
                 && have_tensorboard (collab true)
              then Some (tboard_folder
                           (folder_str (get_date_str (collab true)) "r"))
              else None)).
Proof.
  assert (Hret : Trainer_init (collab true) true fresh_world
                 = (inr tt, tb_construction.2)) by (vm_compute; reflexivity).
  split; [vm_compute; reflexivity|]. split; [vm_compute; reflexivity|].
  split; [exact Hret|].
  apply (init_postcondition (collab true) true fresh_world
           tb_construction.2 (intervals 1 1 1 false) "r");
    [vm_compute; reflexivity | vm_compute; reflexivity | exact Hret].
Defined.

Lemma test_pass_persists_witness :
  model (experiment wet_world) = Some (mkModel 2 true)
  /\ args (experiment wet_world) = Some (intervals 2 1 1 false)
  /\ Trainer_test (collab true) 1 wet_world = (inr tt, wet_pass.2)
  /\ exists g f1,
       test_procedure (collab true) (mkModel 2 false) = inr g
       /\ additional_testing (collab true) (img_folder (self wet_world))
            (mkModel 2 false) (fs wet_world) = inr f1
       /\ self wet_pass.2
          = self_with_histories (self wet_world)
              (train_history (self wet_world))
              (History_add (test_history (self wet_world)) g 2)
       /\ fs wet_pass.2
          = (if dry_run (intervals 2 1 1 false) then f1
             else mkFS (dirs f1)
                    (<[log_path (self wet_world) :=
                         PHistory (History_get_dict
                                     (History_add
                                        (test_history (self wet_world)) g 2))]>
                       (files f1))).
Proof.
  assert (Hret : Trainer_test (collab true) 1 wet_world = (inr tt, wet_pass.2))
    by (vm_compute; reflexivity).
  split; [vm_compute; reflexivity|]. split; [vm_compute; reflexivity|].
  split; [exact Hret|].
  apply (test_pass_persists (collab true) 1 wet_world wet_pass.2
           (mkModel 2 true) (intervals 2 1 1 false));
    [vm_compute; reflexivity | vm_compute; reflexivity | exact Hret].
Defined.

Lemma test_pass_calls_witness :
  model (experiment wet_world) = Some (mkModel 2 true)
  /\ args (experiment wet_world) = Some (intervals 2 1 1 false)
  /\ Trainer_test (collab true) 1 wet_world = (inr tt, wet_pass.2)
  /\ exists g,
       test_procedure (collab true) (mkModel 2 false) = inr g
       /\ events wet_pass.2
          = events wet_world
            ++ test_pass_events (self wet_world) (intervals 2 1 1 false) 2 1 g.
Proof.
  assert (Hret : Trainer_test (collab true) 1 wet_world = (inr tt, wet_pass.2))
    by (vm_compute; reflexivity).
  split; [vm_compute; reflexivity|]. split; [vm_compute; reflexivity|].
  split; [exact Hret|].
  apply (test_pass_calls (collab true) 1 wet_world wet_pass.2
           (mkModel 2 true) (intervals 2 1 1 false));
    [vm_compute; reflexivity | vm_compute; reflexivity | exact Hret].
Defined.

Lemma run_without_batches_witness :
  model (experiment idle_world) = Some (mkModel 0 false)
  /\ dataloaders (experiment idle_world) = Some (mkDataloaders [(0, 0)])
  /\ (max_epochs (experiment idle_world) <= 0
      \/ train (mkDataloaders [(0, 0)]) = [])
  /\ Trainer_run (collab false) idle_world
     = (inr tt,
        mkWorld (exp_with_model (experiment idle_world)
                                (Some (mkModel 0 true)))
                (self idle_world) None [] (fs idle_world)
                (trace idle_world ++ [(EvModelTrain, Some (mkModel 0 false))])).
Proof.
  assert (Hnone : max_epochs (experiment idle_world) <= 0
                  \/ train (mkDataloaders [(0, 0)]) = [])
    by (left; vm_compute; discriminate).
  split; [reflexivity|]. split; [reflexivity|]. split; [exact Hnone|].
  apply (run_without_batches (collab false) idle_world (mkModel 0 false)
           (mkDataloaders [(0, 0)]));
    [reflexivity | reflexivity | exact Hnone].
Defined.

Lemma run_advances_step_witness :
  model (experiment dry_world) = Some (mkModel 2 true)
  /\ dataloaders (experiment dry_world)
     = Some (mkDataloaders [(0, 0); (1, 1)])
  /\ Trainer_run (collab false) dry_world = (inr tt, cadence_run.2)
  /\ model (experiment cadence_run.2)
     = Some (mkModel (2 + Z.max 0 (max_epochs (experiment dry_world))
                          * Z.of_nat (length [(0, 0); (1, 1)]))
                     true).
Proof.
  assert (Hret : Trainer_run (collab false) dry_world = (inr tt, cadence_run.2))
    by (vm_compute; reflexivity).
  split; [vm_compute; reflexivity|]. split; [vm_compute; reflexivity|].
  split; [exact Hret|].
  apply (run_advances_step (collab false) dry_world cadence_run.2
           (mkModel 2 true) (mkDataloaders [(0, 0); (1, 1)]));
    [vm_compute; reflexivity | vm_compute; reflexivity | exact Hret].
Defined.

Lemma evaluation_cadence_witness :
  model (experiment dry_world) = Some (mkModel 2 true)
  /\ args (experiment dry_world) = Some (intervals 2 1 1 true)
  /\ run_batch (collab false) 1 (0, 0) dry_world = (iteration.1, iteration.2)
  /\ exists evs,
       events iteration.2 = events dry_world ++ evs
       /\ (EvModelEval ∈ evs <-> py_mod 2 1 = inr 0)
       /\ (py_mod 2 1 = inr 0 -> exists rest, evs = EvModelEval :: rest).
Proof.
  unfold iteration.
  split; [vm_compute; reflexivity|]. split; [vm_compute; reflexivity|].
  split; [apply surjective_pairing|].
  eapply (evaluation_cadence (collab false) 1 (0, 0) dry_world _ _
            (mkModel 2 true) (intervals 2 1 1 true));
    [vm_compute; reflexivity | vm_compute; reflexivity
    | apply surjective_pairing].
Defined.

Lemma run_takes_no_construction_step_witness :
  args (experiment dry_world) = Some (intervals 2 1 1 true)
  /\ Trainer_run (collab false) dry_world = (cadence_run.1, cadence_run.2)
  /\ exists tr,
       trace cadence_run.2 = trace dry_world ++ tr
       /\ Forall (fun en => is_construction_event en.1 = false) tr.
Proof.
  unfold cadence_run.
  split; [vm_compute; reflexivity|]. split; [apply surjective_pairing|].
  eapply (run_takes_no_construction_step (collab false) dry_world _ _
            (intervals 2 1 1 true));
    [vm_compute; reflexivity | apply surjective_pairing].
Defined.

Lemma run_dry_persists_nothing_witness :
  args (experiment dry_world) = Some (intervals 2 1 1 true)
  /\ dry_run (intervals 2 1 1 true) = true
  /\ Trainer_run (collab false) dry_world = (cadence_run.1, cadence_run.2)
  /\ exists tr,
       trace cadence_run.2 = trace dry_world ++ tr
       /\ Forall (fun en => is_persist_event en.1 = false) tr.
Proof.
  unfold cadence_run.
  split; [vm_compute; reflexivity|]. split; [reflexivity|].
  split; [apply surjective_pairing|].
  eapply (run_dry_persists_nothing (collab false) dry_world _ _
            (intervals 2 1 1 true));
    [vm_compute; reflexivity | reflexivity | apply surjective_pairing].
Defined.

Lemma run_log_cadence_witness :
  args (experiment dry_world) = Some (intervals 2 1 1 true)
  /\ Trainer_run (collab false) dry_world = (cadence_run.1, cadence_run.2)
  /\ exists tr,
       trace cadence_run.2 = trace dry_world ++ tr
       /\ (forall s' epoch mo, (EvPrintTrainLog s' epoch, mo) ∈ tr ->
           py_mod s' 1 = inr 0
           /\ exists m, mo = Some m /\ s' = global_step m + 1)
       /\ (forall s' epoch mo, (EvPrintTestLog s' epoch, mo) ∈ tr ->
           py_mod s' 1 = inr 0
           /\ exists m, mo = Some m /\ s' = global_step m).
Proof.
  unfold cadence_run.
  split; [vm_compute; reflexivity|]. split; [apply surjective_pairing|].
  eapply (run_log_cadence (collab false) dry_world _ _
            (intervals 2 1 1 true));
    [vm_compute; reflexivity | apply surjective_pairing].
Defined.

Lemma run_without_optimizer_witness :
  model (experiment no_optimizer_world) = Some (mkModel 2 true)
  /\ args (experiment no_optimizer_world) = Some (intervals 2 1 1 true)
  /\ dataloaders (experiment no_optimizer_world)
     = Some (mkDataloaders [(0, 0); (1, 1)])
  /\ optimizer (experiment no_optimizer_world) = None
  /\ 1 <= max_epochs (experiment no_optimizer_world)
  /\ exists exc w' evs,
       Trainer_run (collab false) no_optimizer_world = (inl exc, w')
       /\ events w' = events no_optimizer_world ++ EvModelTrain :: evs
       /\ List.filter is_step_hook evs = []
       /\ global_step <$> model (experiment w') = Some 2
       /\ (List.filter is_tqdm evs <> [] -> exc = AttributeError)
       /\ (forall z, py_mod 2 1 = inr z -> z <> 0 ->
           exc = AttributeError /\ evs = []).
Proof.
  split; [vm_compute; reflexivity|]. split; [vm_compute; reflexivity|].
  split; [vm_compute; reflexivity|]. split; [vm_compute; reflexivity|].
  split; [vm_compute; discriminate|].
  apply (run_without_optimizer (collab false) no_optimizer_world
           (mkModel 2 true) (intervals 2 1 1 true)
           (mkDataloaders [(0, 0); (1, 1)]) (0, 0) [(1, 1)]);
    [vm_compute; reflexivity | vm_compute; reflexivity
    | vm_compute; reflexivity | vm_compute; reflexivity | reflexivity
    | vm_compute; discriminate].
Defined.

Lemma run_histories_append_only_witness :
  args (experiment dry_world) = Some (intervals 2 1 1 true)
  /\ Trainer_run (collab false) dry_world = (cadence_run.1, cadence_run.2)
  /\ (exists h, train_history (self cadence_run.2)
                = train_history (self dry_world) ++ h)
  /\ (exists h, test_history (self cadence_run.2)
                = test_history (self dry_world) ++ h
                /\ Forall (fun rec => py_mod rec.1 1 = inr 0) h).
Proof.
  unfold cadence_run.
  split; [vm_compute; reflexivity|]. split; [apply surjective_pairing|].
  eapply (run_histories_append_only (collab false) dry_world _ _
            (intervals 2 1 1 true));
    [vm_compute; reflexivity | apply surjective_pairing].
Defined.

Lemma progress_bar_after_batch_witness :
  model (experiment dry_world) = Some (mkModel 2 true)
  /\ args (experiment dry_world) = Some (intervals 2 1 1 true)
  /\ run_batch (collab false) 1 (0, 0) dry_world = (inr tt, iteration.2)
  /\ exists p,
       progress iteration.2 = Some p
       /\ (py_mod (2 + 1) 1 = inr 0 -> closed p = true)
       /\ (py_mod 2 1 = inr 0 -> total p = 1 /\ count p = 1)
       /\ (py_mod 2 1 <> inr 0 ->
           exists p0, progress dry_world = Some p0
                      /\ total p = total p0 /\ count p = count p0 + 1).
Proof.
  assert (Hret : run_batch (collab false) 1 (0, 0) dry_world
                 = (inr tt, iteration.2)) by (vm_compute; reflexivity).
  split; [vm_compute; reflexivity|]. split; [vm_compute; reflexivity|].
  split; [exact Hret|].
  apply (progress_bar_after_batch (collab false) 1 (0, 0) dry_world
           iteration.2 (mkModel 2 true) (intervals 2 1 1 true));
    [vm_compute; reflexivity | vm_compute; reflexivity | exact Hret].
Defined.

Lemma run_dry_leaves_disk_witness :
  args (experiment dry_world) = Some (intervals 2 1 1 true)
  /\ dry_run (intervals 2 1 1 true) = true
  /\ hooks_write_nothing (collab false)
  /\ fs cadence_run.2 = fs dry_world.
Proof.
  assert (Hhooks : hooks_write_nothing (collab false))
    by (split; intros ? ? ? ? H; cbn in H; congruence).
  split; [vm_compute; reflexivity|]. split; [reflexivity|].
  split; [exact Hhooks|].
  unfold cadence_run.
  eapply (run_dry_leaves_disk (collab false) dry_world _ _
            (intervals 2 1 1 true));
    [vm_compute; reflexivity | reflexivity | exact Hhooks
    | apply surjective_pairing].
Defined.

Lemma zero_log_interval_witness :
  model (experiment zero_log_world) = Some (mkModel 1 true)
  /\ args (experiment zero_log_world) = Some (intervals 1 1 0 true)
  /\ exists exc w' evs,
       run_batch (collab false) 1 (0, 0) zero_log_world = (inl exc, w')
       /\ events w' = events zero_log_world ++ evs
       /\ List.filter is_step_hook evs
          `prefix_of` [EvZeroGrad; EvForwardPass; EvBackward;
                       EvSummarizersAdd]
       /\ global_step <$> model (experiment w') = Some 1
       /\ (List.filter is_progress_update evs <> [] ->
           exc = ZeroDivisionError).
Proof.
  split; [vm_compute; reflexivity|]. split; [vm_compute; reflexivity|].
  apply (zero_log_interval (collab false) 1 (0, 0) zero_log_world
           (mkModel 1 true) (intervals 1 1 0 true));
    [vm_compute; reflexivity | vm_compute; reflexivity | reflexivity].
Defined.

Lemma init_without_run_description_witness :
  args (experiment undescribed_world) = Some (intervals 1 1 1 false)
  /\ run_description (experiment undescribed_world) = None
  /\ py_mod 1 1 = inr 0
  /\ exists w',
       Trainer_init (collab false) true undescribed_world
       = (inl TypeError, w')
       /\ fs w' = fs undescribed_world
       /\ events w' = events undescribed_world ++ [EvSetRndSeed 0].
Proof.
  split; [reflexivity|]. split; [reflexivity|]. split; [reflexivity|].
  apply (init_without_run_description (collab false) true undescribed_world
           (intervals 1 1 1 false)); reflexivity.
Defined.

End Checks.
